(** * Acer Switch 11 battery module: register transport and telemetry

    A shallow embedding of [battery-module.c].  The driver talks to the
    battery controller through the kernel's [i2c_transfer]; every metric
    it reports is derived from a few byte reads.  The embedding keeps

    - the C integer types as [Z] with every conversion written out
      ([u8], [u16], [u32], [u64], [s32]);
    - the bus primitive as a parameter of the development (the driver is
      verified against every bus), with a record of the transfers that
      were issued and of the lines given to [printk];
    - division as a fallible operation, so that a division by zero shows
      up as a fault of the computation and not as a value. *)

From Stdlib Require Import String ZArith List Lia Bool.
Import ListNotations.
Local Open Scope Z_scope.

(** ** C integer conversions *)

Module CInt.

Definition u8  (x : Z) : Z := x mod 2 ^ 8.
Definition u16 (x : Z) : Z := x mod 2 ^ 16.
Definition u32 (x : Z) : Z := x mod 2 ^ 32.
Definition u64 (x : Z) : Z := x mod 2 ^ 64.

(** Conversion to [int] (two's complement, as gcc does it). *)
Definition s32 (x : Z) : Z :=
  let y := x mod 2 ^ 32 in
  if y <? 2 ^ 31 then y else y - 2 ^ 32.

End CInt.
Import CInt.

(** ** What the driver uses of the kernel headers

    [linux/power_supply.h], [linux/i2c.h], [linux/compiler.h] and the errno
    values are the kernel's, not the module's; the few names the module
    uses are given here with the kernel's values. *)

Module Linux.

Definition POWER_SUPPLY_STATUS_UNKNOWN      : Z := 0.
Definition POWER_SUPPLY_STATUS_CHARGING     : Z := 1.
Definition POWER_SUPPLY_STATUS_DISCHARGING  : Z := 2.
Definition POWER_SUPPLY_STATUS_NOT_CHARGING : Z := 3.
Definition POWER_SUPPLY_STATUS_FULL         : Z := 4.

Definition POWER_SUPPLY_CAPACITY_LEVEL_UNKNOWN  : Z := 0.
Definition POWER_SUPPLY_CAPACITY_LEVEL_CRITICAL : Z := 1.
Definition POWER_SUPPLY_CAPACITY_LEVEL_LOW      : Z := 2.
Definition POWER_SUPPLY_CAPACITY_LEVEL_NORMAL   : Z := 3.
Definition POWER_SUPPLY_CAPACITY_LEVEL_HIGH     : Z := 4.
Definition POWER_SUPPLY_CAPACITY_LEVEL_FULL     : Z := 5.

Definition POWER_SUPPLY_TECHNOLOGY_LION : Z := 2.

Definition EINVAL   : Z := 22.
Definition I2C_M_RD : Z := 1.

(** [enum power_supply_property]: the thirteen enumerators the module
    names, and [POWER_SUPPLY_PROP_OTHER] for every other value the
    kernel may pass (HEALTH, ONLINE, CYCLE_COUNT, ...). *)
Inductive power_supply_property : Type :=
| POWER_SUPPLY_PROP_STATUS
| POWER_SUPPLY_PROP_CAPACITY
| POWER_SUPPLY_PROP_TIME_TO_EMPTY_NOW
| POWER_SUPPLY_PROP_TIME_TO_FULL_NOW
| POWER_SUPPLY_PROP_VOLTAGE_NOW
| POWER_SUPPLY_PROP_CURRENT_NOW
| POWER_SUPPLY_PROP_PRESENT
| POWER_SUPPLY_PROP_ENERGY_FULL
| POWER_SUPPLY_PROP_ENERGY_NOW
| POWER_SUPPLY_PROP_TECHNOLOGY
| POWER_SUPPLY_PROP_MODEL_NAME
| POWER_SUPPLY_PROP_MANUFACTURER
| POWER_SUPPLY_PROP_CAPACITY_LEVEL
| POWER_SUPPLY_PROP_OTHER (id : Z).

(** [union power_supply_propval]. *)
Inductive power_supply_propval : Type :=
| intval (i : Z)
| strval (s : string).

(** [unlikely(x)] is [__builtin_expect(!!(x), 0)]: its value is the truth
    value of [x], 0 or 1. *)
Definition unlikely (x : Z) : Z := if x =? 0 then 0 else 1.

(** [struct i2c_msg]; [buf] holds the bytes the buffer has when the
    transfer is issued. *)
Record i2c_msg : Type := mk_msg {
  msg_addr  : Z;
  msg_flags : Z;
  msg_len   : Z;
  msg_buf   : list Z
}.

(** What one call of [i2c_transfer] gives back: its return value (the
    number of messages done, or a negative errno) and the bytes it
    left in the message buffer. *)
Record xfer_result : Type := mk_xfer {
  xr_ret : Z;
  xr_buf : list Z
}.

(** The bytes a write message puts on the wire: the first [msg_len]
    bytes of its buffer. *)
Definition wire_bytes (m : i2c_msg) : list Z :=
  firstn (Z.to_nat (msg_len m)) (msg_buf m).

Record i2c_client : Type := mk_client { client_addr : Z }.

End Linux.
Import Linux.

(** ** Constants of the module *)

Definition BATTERY_I2C_ADDRESS      : Z := 0x70.
Definition BATTERY_REGISTER_STATUS  : Z := 0xC1.
Definition BATTERY_REGISTER_RATE    : Z := 0xD0.
Definition BATTERY_REGISTER_ENERGY  : Z := 0xC2.
Definition BATTERY_REGISTER_VOLTAGE : Z := 0xC6.

(** The device [battery_module_init] creates from [board_info]. *)
Definition battery_device : i2c_client :=
  {| client_addr := BATTERY_I2C_ADDRESS |}.

(** Available properties of the battery, as advertised to the kernel. *)
Definition battery_properties : list power_supply_property :=
  [ POWER_SUPPLY_PROP_STATUS;
    POWER_SUPPLY_PROP_CAPACITY;
    POWER_SUPPLY_PROP_TIME_TO_EMPTY_NOW;
    POWER_SUPPLY_PROP_TIME_TO_FULL_NOW;
    POWER_SUPPLY_PROP_VOLTAGE_NOW;
    POWER_SUPPLY_PROP_CURRENT_NOW;
    POWER_SUPPLY_PROP_PRESENT;
    POWER_SUPPLY_PROP_ENERGY_FULL;
    POWER_SUPPLY_PROP_ENERGY_NOW;
    POWER_SUPPLY_PROP_TECHNOLOGY;
    POWER_SUPPLY_PROP_MODEL_NAME;
    POWER_SUPPLY_PROP_MANUFACTURER ].

(** Lines the module gives to [printk]. *)
Inductive log_line : Type :=
| WriteFailed (reg result try max_tries : Z)
| ReadFailed (reg result try max_tries : Z)
| UnknownReport.

(** ** The driver, over an arbitrary bus *)

Section Driver.

(** The state of the bus and of the device behind it, and the kernel's
    transfer primitive for one message. *)
Variable Bus : Type.
Variable xfer : i2c_msg -> Bus -> xfer_result * Bus.

(** The world a query runs in: the bus, the transfers issued so far
    (oldest first) and the kernel log. *)
Record World : Type := mk_world {
  bus   : Bus;
  wire  : list (i2c_msg * xfer_result);
  dmesg : list log_line
}.

(** Computations: state passing over [World]; [None] is a fault (the
    only one the module can raise is a division by zero). *)
Definition M (A : Type) : Type := World -> option (A * World).

Definition mret {A} (a : A) : M A := fun w => Some (a, w).

Definition mbind {A B} (c : M A) (k : A -> M B) : M B :=
  fun w => match c w with
           | Some (a, w') => k a w'
           | None => None
           end.

Definition fault {A} : M A := fun _ => None.

(** The value and the final world of a run. *)
Definition eval {A} (c : M A) (w : World) : option A :=
  match c w with Some (a, _) => Some a | None => None end.

Definition exec {A} (c : M A) (w : World) : World :=
  match c w with Some (_, w') => w' | None => w end.

Notation "x <- c ;; k" := (mbind c (fun x => k))
  (at level 61, c at next level, right associativity).
Notation "c ;;; k" := (mbind c (fun _ => k))
  (at level 61, right associativity).

Definition i2c_transfer (msg : i2c_msg) : M xfer_result :=
  fun w =>
    let '(r, b) := xfer msg (bus w) in
    Some (r, {| bus := b; wire := wire w ++ [(msg, r)]; dmesg := dmesg w |}).

Definition printk (l : log_line) : M unit :=
  fun w =>
    Some (tt, {| bus := bus w; wire := wire w; dmesg := dmesg w ++ [l] |}).

(** Unsigned division; the divisor zero is a fault. *)
Definition udiv (a b : Z) : M Z :=
  if b =? 0 then fault else mret (a / b).

(** *** Register transport *)

Definition max_tries : Z := 5.

(** The loop [for (tries = 0; tries < max_tries; tries++)] of
    [read_byte_register], with [left] = [max_tries - tries] rounds to go
    and [r] the outcome of the last transfer.  A round transfers [msg];
    the result 1 leaves the loop, any other is logged. *)
Fixpoint transfer_loop (line : Z -> Z -> Z -> log_line) (msg : i2c_msg)
         (left : nat) (tries : Z) (r : xfer_result) : M xfer_result :=
  match left with
  | O => mret r
  | S left' =>
      r' <- i2c_transfer msg ;;
      if xr_ret r' =? 1 then mret r'
      else printk (line (xr_ret r') (tries + 1) max_tries) ;;;
           transfer_loop line msg left' (tries + 1) r'
  end.

(** [ret] is not initialised before the first round; it is never read
    in that state, as the loop runs at least once. *)
Definition no_result : xfer_result := {| xr_ret := 0; xr_buf := [] |}.

(** The write message: [bufo] has eight bytes, all 0 but the first three,
    and [msg.len] is 5. *)
Definition write_msg (reg : Z) : i2c_msg :=
  {| msg_addr := client_addr battery_device;
     msg_flags := 0;
     msg_len := 5;
     msg_buf := [0x02; 0x80; reg; 0; 0; 0; 0; 0] |}.

(** The buffer of the read message is the one byte [value]. *)
Definition read_msg : i2c_msg :=
  {| msg_addr := client_addr battery_device;
     msg_flags := I2C_M_RD;
     msg_len := 1;
     msg_buf := [0] |}.

Definition read_byte_register (reg : Z) : M Z :=
  r <- transfer_loop (WriteFailed reg) (write_msg reg)
                     (Z.to_nat max_tries) 0 no_result ;;
  if negb (xr_ret r =? 1) then mret 0x00
  else
    r <- transfer_loop (ReadFailed reg) read_msg
                       (Z.to_nat max_tries) 0 no_result ;;
    if negb (xr_ret r =? 1) then mret 0x00
    else mret (u8 (nth 0 (xr_buf r) 0)).

(** The operands of [|] are taken left to right: the high byte (at
    [reg + 1], converted to the [u8] parameter) is read first. *)
Definition read_word_register (reg : Z) : M Z :=
  hi <- read_byte_register (u8 (reg + 1)) ;;
  lo <- read_byte_register reg ;;
  mret (u16 (Z.lor (Z.shiftl hi 8) lo)).

(** *** Telemetry derivation *)

(** Read the current energy in mWh. *)
Definition battery_energy : M Z :=
  w <- read_word_register BATTERY_REGISTER_ENERGY ;;
  mret (u32 (w * 10)).

(** Read the last full energy in mWh (a constant, not read). *)
Definition battery_energy_full : M Z := mret 37500.

(** Read the current voltage in mV. *)
Definition battery_voltage : M Z :=
  w <- read_word_register BATTERY_REGISTER_VOLTAGE ;;
  mret w.

(** Read the current (dis-)charging rate in mW. *)
Definition battery_rate : M Z :=
  rate <- read_word_register BATTERY_REGISTER_RATE ;;
  let rate := if rate >? 0x7FFF then u32 (0x10000 - rate) else rate in
  v <- battery_voltage ;;
  mret (u32 (rate * v)).

(** Read the current battery status. *)
Definition battery_status : M Z :=
  status <- read_byte_register BATTERY_REGISTER_STATUS ;;
  if negb (Z.land status 0x01 =? 0) then
    mret POWER_SUPPLY_STATUS_DISCHARGING
  else if negb (Z.land status 0x02 =? 0) then
    mret POWER_SUPPLY_STATUS_CHARGING
  else if Z.land status 0x03 =? 0x00 then
    mret POWER_SUPPLY_STATUS_FULL
  else
    mret POWER_SUPPLY_STATUS_UNKNOWN.

(** Read the capacity in %. *)
Definition battery_capacity : M Z :=
  last_full <- battery_energy_full ;;
  if negb (unlikely (if last_full =? 0 then 1 else 0) =? 0) then
    mret 0
  else
    e <- battery_energy ;;
    f <- battery_energy_full ;;
    udiv (u32 (100 * e)) f.

(** Read the level of capacity, from fixed thresholds. *)
Definition battery_capaity_level : M Z :=
  capacity <- battery_capacity ;;
  if capacity =? 100 then
    mret POWER_SUPPLY_CAPACITY_LEVEL_FULL
  else if capacity <=? 5 then
    mret POWER_SUPPLY_CAPACITY_LEVEL_CRITICAL
  else if capacity <=? 15 then
    mret POWER_SUPPLY_CAPACITY_LEVEL_LOW
  else
    mret POWER_SUPPLY_CAPACITY_LEVEL_NORMAL.

(** Read the estimated time until the battery is empty.  The product is
    taken in [unsigned long long]; the quotient is returned as
    [unsigned int]. *)
Definition battery_time_to_empty : M Z :=
  rate <- battery_rate ;;
  if negb (unlikely (if rate =? 0 then 1 else 0) =? 0) then
    mret 0
  else
    e <- battery_energy ;;
    q <- udiv (u64 (u64 (u64 (e * 60) * 60) * 1000)) rate ;;
    mret (u32 q).

(** Read the estimated time until the battery is fully charged.
    [energy_missing] is an [int]; the test that guards its reset
    compares the value of [unlikely(energy_missing)] with 0. *)
Definition battery_time_to_full : M Z :=
  rate <- battery_rate ;;
  if negb (unlikely (if rate =? 0 then 1 else 0) =? 0) then
    mret 0
  else
    f <- battery_energy_full ;;
    e <- battery_energy ;;
    let energy_missing := s32 (u32 (f - e)) in
    let energy_missing :=
      if unlikely energy_missing <? 0 then 0 else energy_missing in
    q <- udiv (u64 (u64 (u64 (u64 energy_missing * 60) * 60) * 1000)) rate ;;
    mret (u32 q).

(** Read the current in mA. *)
Definition battery_current : M Z :=
  voltage <- battery_voltage ;;
  if negb (unlikely (if voltage =? 0 then 1 else 0) =? 0) then
    mret 0
  else
    r <- battery_rate ;;
    udiv r voltage.

(** *** Property provider *)

(** Query a property: the return value of the callback and the
    contents of [*val] afterwards.  An [unsigned int] result is stored
    into the [int] field [intval]. *)
Definition battery_get_property (property : power_supply_property)
           (val : power_supply_propval) : M (Z * power_supply_propval) :=
  match property with
  | POWER_SUPPLY_PROP_CAPACITY =>
      v <- battery_capacity ;; mret (0, intval (s32 v))
  | POWER_SUPPLY_PROP_STATUS =>
      v <- battery_status ;; mret (0, intval (s32 v))
  | POWER_SUPPLY_PROP_TIME_TO_EMPTY_NOW =>
      v <- battery_time_to_empty ;; mret (0, intval (s32 v))
  | POWER_SUPPLY_PROP_TIME_TO_FULL_NOW =>
      v <- battery_time_to_full ;; mret (0, intval (s32 v))
  | POWER_SUPPLY_PROP_VOLTAGE_NOW =>
      v <- battery_voltage ;; mret (0, intval (s32 v))
  | POWER_SUPPLY_PROP_CURRENT_NOW =>
      v <- battery_current ;; mret (0, intval (s32 v))
  | POWER_SUPPLY_PROP_ENERGY_FULL =>
      v <- battery_energy_full ;; mret (0, intval (s32 (u32 (v * 1000))))
  | POWER_SUPPLY_PROP_ENERGY_NOW =>
      v <- battery_energy ;; mret (0, intval (s32 (u32 (v * 1000))))
  | POWER_SUPPLY_PROP_CAPACITY_LEVEL =>
      v <- battery_capaity_level ;; mret (0, intval (s32 v))
  | POWER_SUPPLY_PROP_PRESENT =>
      mret (0, intval 1)
  | POWER_SUPPLY_PROP_TECHNOLOGY =>
      mret (0, intval POWER_SUPPLY_TECHNOLOGY_LION)
  | POWER_SUPPLY_PROP_MANUFACTURER =>
      mret (0, strval "Acer")
  | POWER_SUPPLY_PROP_MODEL_NAME =>
      mret (0, strval "Acer Switch 11 Battery by jfrimmel")
  | POWER_SUPPLY_PROP_OTHER _ =>
      printk UnknownReport ;;; mret (- EINVAL, val)
  end.

End Driver.

Arguments mk_world {Bus}.
Arguments bus {Bus}.
Arguments wire {Bus}.
Arguments dmesg {Bus}.
Arguments mret {Bus A}.
Arguments mbind {Bus A B}.
Arguments eval {Bus A}.
Arguments exec {Bus A}.
Arguments i2c_transfer {Bus}.
Arguments printk {Bus}.
Arguments udiv {Bus}.
Arguments transfer_loop {Bus}.
Arguments read_byte_register {Bus}.
Arguments read_word_register {Bus}.
Arguments battery_energy {Bus}.
Arguments battery_energy_full {Bus}.
Arguments battery_voltage {Bus}.
Arguments battery_rate {Bus}.
Arguments battery_status {Bus}.
Arguments battery_capacity {Bus}.
Arguments battery_capaity_level {Bus}.
Arguments battery_time_to_empty {Bus}.
Arguments battery_time_to_full {Bus}.
Arguments battery_current {Bus}.
Arguments battery_get_property {Bus}.

(** ** Two buses to run the driver on *)

(** A bus on which no transfer ever succeeds ([-EIO] each time). *)
Module DeadBus.

Definition xfer (m : i2c_msg) (b : unit) : xfer_result * unit :=
  ({| xr_ret := -5; xr_buf := msg_buf m |}, b).

Definition w0 : World unit := {| bus := tt; wire := []; dmesg := [] |}.

End DeadBus.

(** A simulated controller.  A write message selects the register named
    by its third byte; a read message returns the byte of the selected
    register.  [script] holds the results of the transfers to come, one
    per transfer: 1 lets the transfer through, any other value makes it
    fail with that value; when the script is used up every transfer goes
    through. *)
Module SimBus.

Record sim : Type := mk_sim {
  regs     : list (Z * Z);
  selected : Z;
  script   : list Z
}.

Fixpoint lookup (r : Z) (l : list (Z * Z)) : Z :=
  match l with
  | [] => 0
  | (k, v) :: l' => if k =? r then v else lookup r l'
  end.

Definition perform (m : i2c_msg) (s : sim) (rest : list Z)
  : xfer_result * sim :=
  if negb (Z.land (msg_flags m) I2C_M_RD =? 0) then
    ({| xr_ret := 1; xr_buf := [u8 (lookup (selected s) (regs s))] |},
     {| regs := regs s; selected := selected s; script := rest |})
  else
    ({| xr_ret := 1; xr_buf := msg_buf m |},
     {| regs := regs s; selected := nth 2 (msg_buf m) 0; script := rest |}).

Definition xfer (m : i2c_msg) (s : sim) : xfer_result * sim :=
  match script s with
  | [] => perform m s []
  | r :: rest =>
      if r =? 1 then perform m s rest
      else ({| xr_ret := r; xr_buf := msg_buf m |},
            {| regs := regs s; selected := selected s; script := rest |})
  end.

Definition boot (rs : list (Z * Z)) (sc : list Z) : World sim :=
  {| bus := {| regs := rs; selected := 0; script := sc |};
     wire := []; dmesg := [] |}.

(** ENERGY holds 0x0064. *)
Definition energy_0064 : World sim :=
  boot [(0xC2, 0x64); (0xC3, 0x00)] [].

(** ENERGY holds 0x0164. *)
Definition energy_0164 : World sim :=
  boot [(0xC2, 0x64); (0xC3, 0x01)] [].

(** RATE holds 0xFF9C (-100), VOLTAGE 7400. *)
Definition rate_ff9c : World sim :=
  boot [(0xD0, 0x9C); (0xD1, 0xFF); (0xC6, 0xE8); (0xC7, 0x1C)] [].

(** RATE holds 0x8000, VOLTAGE 7400. *)
Definition rate_8000 : World sim :=
  boot [(0xD0, 0x00); (0xD1, 0x80); (0xC6, 0xE8); (0xC7, 0x1C)] [].

(** Charging at RATE 0x0064 (100) and VOLTAGE 7400, with ENERGY at
    0x0EA7 (3751, that is 37510 mWh): more than the 37500 mWh the
    module takes for a full battery. *)
Definition above_full : World sim :=
  boot [(0xD0, 0x64); (0xD1, 0x00); (0xC6, 0xE8); (0xC7, 0x1C);
        (0xC2, 0xA7); (0xC3, 0x0E)] [].

End SimBus.

(** ** Loading and unloading the module

    [battery_module_init] and [battery_module_exit] only call into the
    kernel.  The calls are recorded in the order they are made; pointers
    are numbers, [NULL] is 0, and a call that hands out a pointer is
    recorded with the pointer it returned. *)
Module Lifecycle.

Definition NULL : Z := 0.
Definition ENODEV : Z := 19.
Definition BATTERY_I2C_BUS : Z := 1.
Definition BATTERY_NAME : string := "BAT0".

Inductive kcall : Type :=
| i2c_get_adapter (nr returned : Z)
| i2c_new_device (adap : Z) (type : string) (addr returned : Z)
| power_supply_register (parent : Z) (name : string) (num_properties : nat)
                        (returned : Z)
| power_supply_unregister (psy : Z)
| i2c_unregister_device (client : Z)
| i2c_put_adapter (adap : Z).

(** What the kernel answers to the three calls that hand out a pointer. *)
Record kernel : Type := mk_kernel {
  adapter : Z;
  client  : Z;
  supply  : Z
}.

(** The global pointers of the module. *)
Record globals : Type := mk_globals {
  battery_bus    : Z;
  battery_device : Z;
  battery        : Z
}.

(** Initialize the kernel module: the return value, the globals and the
    calls made. *)
Definition battery_module_init (k : kernel) (g : globals)
  : Z * globals * list kcall :=
  let bus := adapter k in
  let get := i2c_get_adapter BATTERY_I2C_BUS bus in
  let dev := client k in
  let new := i2c_new_device bus "acer-switch-battery" BATTERY_I2C_ADDRESS dev in
  if dev =? NULL then
    (- ENODEV,
     {| battery_bus := bus; battery_device := dev; battery := battery g |},
     [get; new])
  else
    let psy := supply k in
    let reg := power_supply_register NULL BATTERY_NAME
                 (length battery_properties) psy in
    let g' := {| battery_bus := bus; battery_device := dev; battery := psy |} in
    if psy =? NULL then
      (- EINVAL, g',
       [get; new; reg; i2c_unregister_device dev; i2c_put_adapter bus])
    else
      (0, g', [get; new; reg]).

(** Exit the kernel module. *)
Definition battery_module_exit (g : globals) : list kcall :=
  [ power_supply_unregister (battery g);
    i2c_unregister_device (battery_device g);
    i2c_put_adapter (battery_bus g) ].

(** What is held after a sequence of calls: every pointer handed out and
    not given back since, the latest first. *)
Inductive resource : Type :=
| Adapter (p : Z)
| Client (p : Z)
| Supply (p : Z).

Definition resource_eqb (a b : resource) : bool :=
  match a, b with
  | Adapter p, Adapter q => p =? q
  | Client p, Client q => p =? q
  | Supply p, Supply q => p =? q
  | _, _ => false
  end.

Fixpoint give_back (r : resource) (held : list resource) : list resource :=
  match held with
  | [] => []
  | h :: held' => if resource_eqb r h then held' else h :: give_back r held'
  end.

Definition hand_out (r : resource) (p : Z) (held : list resource)
  : list resource :=
  if p =? NULL then held else r :: held.

Definition after_call (held : list resource) (c : kcall) : list resource :=
  match c with
  | i2c_get_adapter _ p => hand_out (Adapter p) p held
  | i2c_new_device _ _ _ p => hand_out (Client p) p held
  | power_supply_register _ _ _ p => hand_out (Supply p) p held
  | power_supply_unregister p => give_back (Supply p) held
  | i2c_unregister_device p => give_back (Client p) held
  | i2c_put_adapter p => give_back (Adapter p) held
  end.

Definition held_after (calls : list kcall) : list resource :=
  fold_left after_call calls [].

End Lifecycle.

(** ** Vocabulary of the statements *)

(** A transfer that did not go through: any result but 1. *)
Definition failed (r : xfer_result) : Prop := xr_ret r <> 1.

(** The results of one phase of [read_byte_register], oldest first: at
    least one and at most [max_tries] transfers, every one but the last
    a failure. *)
Definition attempts (rs : list xfer_result) : Prop :=
  (1 <= length rs <= Z.to_nat max_tries)%nat /\ Forall failed (removelast rs).

(** The phase ended on a transfer that went through. *)
Definition succeeded (rs : list xfer_result) : Prop :=
  xr_ret (last rs no_result) = 1.

(** The phase used all its tries and the last one failed too. *)
Definition exhausted (rs : list xfer_result) : Prop :=
  length rs = Z.to_nat max_tries /\ failed (last rs no_result).

(** The byte the last transfer of a read phase left in [value]. *)
Definition received (rs : list xfer_result) : Z :=
  u8 (nth 0 (xr_buf (last rs no_result)) 0).

(** The lines one phase logs: one for each failed transfer, with the
    result of the transfer and its number, counted from [tries + 1]. *)
Fixpoint failure_lines (line : Z -> Z -> Z -> log_line) (tries : Z)
         (rs : list xfer_result) : list log_line :=
  match rs with
  | [] => []
  | r :: rs' =>
      if xr_ret r =? 1 then []
      else line (xr_ret r) (tries + 1) max_tries
             :: failure_lines line (tries + 1) rs'
  end.

(** A transfer of a write message (the read flag is clear). *)
Definition is_write (e : i2c_msg * xfer_result) : bool :=
  Z.land (msg_flags (fst e)) I2C_M_RD =? 0.

(** The transfers a computation adds to the record of the wire. *)
Definition issued {Bus A} (c : M Bus A) (w : World Bus)
  : list (i2c_msg * xfer_result) :=
  skipn (length (wire w)) (wire (exec c w)).

(** The byte sequences of the write messages among them. *)
Definition write_phase_sent {Bus A} (c : M Bus A) (w : World Bus)
  : list (list Z) :=
  map (fun e => wire_bytes (fst e)) (filter is_write (issued c w)).

(** No transfer on the bus ever goes through. *)
Definition every_transfer_fails {Bus} (xfer : i2c_msg -> Bus -> xfer_result * Bus)
  : Prop :=
  forall m b, failed (fst (xfer m b)).

(** The identifiers [battery_get_property] has a case for. *)
Definition known_properties : list power_supply_property :=
  [ POWER_SUPPLY_PROP_CAPACITY;
    POWER_SUPPLY_PROP_STATUS;
    POWER_SUPPLY_PROP_TIME_TO_EMPTY_NOW;
    POWER_SUPPLY_PROP_TIME_TO_FULL_NOW;
    POWER_SUPPLY_PROP_VOLTAGE_NOW;
    POWER_SUPPLY_PROP_CURRENT_NOW;
    POWER_SUPPLY_PROP_ENERGY_FULL;
    POWER_SUPPLY_PROP_ENERGY_NOW;
    POWER_SUPPLY_PROP_CAPACITY_LEVEL;
    POWER_SUPPLY_PROP_PRESENT;
    POWER_SUPPLY_PROP_TECHNOLOGY;
    POWER_SUPPLY_PROP_MANUFACTURER;
    POWER_SUPPLY_PROP_MODEL_NAME ].

(** The registers the module reads: STATUS, and both bytes of RATE,
    ENERGY and VOLTAGE. *)
Definition battery_registers : list Z :=
  [ BATTERY_REGISTER_STATUS;
    BATTERY_REGISTER_RATE; BATTERY_REGISTER_RATE + 1;
    BATTERY_REGISTER_ENERGY; BATTERY_REGISTER_ENERGY + 1;
    BATTERY_REGISTER_VOLTAGE; BATTERY_REGISTER_VOLTAGE + 1 ].

(** A transfer that belongs to a byte read of one of [regs]: the read
    message, or the message that selects such a register. *)
Definition reads_among (regs : list Z) (e : i2c_msg * xfer_result) : Prop :=
  fst e = read_msg \/ exists r, In r regs /\ fst e = write_msg r.

(** A recorded transfer that did not go through. *)
Definition failedb (e : i2c_msg * xfer_result) : bool :=
  negb (xr_ret (snd e) =? 1).

(** The lines a computation adds to the kernel log. *)
Definition logged {Bus A} (c : M Bus A) (w : World Bus) : list log_line :=
  skipn (length (dmesg w)) (dmesg (exec c w)).

(** [c] keeps to the bus discipline: whenever it returns, it has issued
    at most [n] transfers, all of them parts of byte reads of [regs],
    and has logged one line for each transfer that failed. *)
Definition footprint {Bus A} (regs : list Z) (n : nat) (c : M Bus A) : Prop :=
  forall w v w',
    c w = Some (v, w') ->
    exists evs logs,
      wire w' = wire w ++ evs /\
      dmesg w' = dmesg w ++ logs /\
      (length evs <= n)%nat /\
      Forall (reads_among regs) evs /\
      length logs = length (filter failedb evs).

(** The identifiers answered from constants. *)
Definition fixed_properties : list power_supply_property :=
  [ POWER_SUPPLY_PROP_PRESENT;
    POWER_SUPPLY_PROP_ENERGY_FULL;
    POWER_SUPPLY_PROP_TECHNOLOGY;
    POWER_SUPPLY_PROP_MANUFACTURER;
    POWER_SUPPLY_PROP_MODEL_NAME ].

(** The number of transfers a query may take at most: ten for each byte
    it reads. *)
Definition transfer_budget (p : power_supply_property) : nat :=
  match p with
  | POWER_SUPPLY_PROP_STATUS => 10
  | POWER_SUPPLY_PROP_CAPACITY
  | POWER_SUPPLY_PROP_VOLTAGE_NOW
  | POWER_SUPPLY_PROP_ENERGY_NOW
  | POWER_SUPPLY_PROP_CAPACITY_LEVEL => 20
  | POWER_SUPPLY_PROP_TIME_TO_EMPTY_NOW
  | POWER_SUPPLY_PROP_TIME_TO_FULL_NOW
  | POWER_SUPPLY_PROP_CURRENT_NOW => 60
  | _ => 0
  end.

(** ** Facts about the integer conversions *)

Module CIntFacts.

Lemma u8_range x : 0 <= u8 x < 256.
Proof. unfold u8. change (2 ^ 8) with 256. apply Z.mod_pos_bound. lia. Qed.

Lemma u8_small x : 0 <= x < 256 -> u8 x = x.
Proof. intros H. unfold u8. change (2 ^ 8) with 256. apply Z.mod_small; lia. Qed.

Lemma u16_small x : 0 <= x < 65536 -> u16 x = x.
Proof. intros H. unfold u16. change (2 ^ 16) with 65536. apply Z.mod_small; lia. Qed.

Lemma u32_small x : 0 <= x < 4294967296 -> u32 x = x.
Proof.
  intros H. unfold u32. change (2 ^ 32) with 4294967296.
  apply Z.mod_small; lia.
Qed.

Lemma u64_small x : 0 <= x < 18446744073709551616 -> u64 x = x.
Proof.
  intros H. unfold u64. change (2 ^ 64) with 18446744073709551616.
  apply Z.mod_small; lia.
Qed.

Lemma s32_small x : 0 <= x < 2147483648 -> s32 x = x.
Proof.
  intros H. unfold s32. change (2 ^ 32) with 4294967296.
  change (2 ^ 31) with 2147483648.
  rewrite Z.mod_small by lia.
  destruct (Z.ltb_spec x 2147483648); lia.
Qed.

(** A byte placed above another one does not overlap it. *)
Lemma land_high_low hi lo : 0 <= lo < 256 -> Z.land (Z.shiftl hi 8) lo = 0.
Proof.
  intros Hlo. apply Z.bits_inj'. intros n Hn.
  rewrite Z.land_spec, Z.bits_0.
  destruct (Z.ltb_spec n 8) as [Hlt | Hge].
  - rewrite Z.shiftl_spec_low by lia. reflexivity.
  - replace (Z.testbit lo n) with false; [apply andb_false_r |].
    symmetry. destruct (Z.eq_dec lo 0) as [-> | Hnz]; [apply Z.bits_0 |].
    apply Z.bits_above_log2; [lia |].
    apply Z.log2_lt_pow2; [lia |].
    apply Z.lt_le_trans with (2 ^ 8); [change (2 ^ 8) with 256; lia |].
    apply Z.pow_le_mono_r; lia.
Qed.

Lemma lor_high_low hi lo :
  0 <= lo < 256 -> Z.lor (Z.shiftl hi 8) lo = lo + 256 * hi.
Proof.
  intros Hlo.
  pose proof (Z.add_lor_land (Z.shiftl hi 8) lo) as H.
  rewrite (land_high_low hi lo Hlo) in H.
  rewrite Z.shiftl_mul_pow2 in * by lia.
  change (2 ^ 8) with 256 in *. lia.
Qed.

(** With bits 0 and 1 clear, the two low bits are zero. *)
Lemma land3_of_land1_land2 s :
  Z.land s 1 = 0 -> Z.land s 2 = 0 -> Z.land s 3 = 0.
Proof.
  intros H1 H2.
  change 3 with (Z.lor 1 2).
  rewrite Z.land_lor_distr_r, H1, H2. reflexivity.
Qed.

End CIntFacts.
Import CIntFacts.

(** ** Running computations *)

Section MonadFacts.

Context {Bus : Type}.

Lemma mbind_run {A B} (c : M Bus A) (k : A -> M Bus B) w a w1 :
  c w = Some (a, w1) -> mbind c k w = k a w1.
Proof. intros E. unfold mbind. rewrite E. reflexivity. Qed.

Lemma run_eval {A} (c : M Bus A) w a w1 :
  c w = Some (a, w1) -> eval c w = Some a.
Proof. intros E. unfold eval. rewrite E. reflexivity. Qed.

Lemma run_exec {A} (c : M Bus A) w a w1 :
  c w = Some (a, w1) -> exec c w = w1.
Proof. intros E. unfold exec. rewrite E. reflexivity. Qed.

Lemma eval_run {A} (c : M Bus A) w a :
  eval c w = Some a -> c w = Some (a, exec c w).
Proof.
  unfold eval, exec. destruct (c w) as [[a' w'] |]; intros E.
  - inversion E. reflexivity.
  - discriminate.
Qed.

End MonadFacts.

(** One step of a run: the first computation of a bind has returned. *)
Ltac step E := rewrite (mbind_run _ _ _ _ _ E).

(** ** Facts about lists of transfers *)

Lemma last_default_irrelevant {A} (l : list A) (a d d' : A) :
  last (a :: l) d = last (a :: l) d'.
Proof.
  revert a. induction l as [| b l IH]; intros a; [reflexivity |].
  change (last (b :: l) d = last (b :: l) d'). apply IH.
Qed.

Lemma last_cons_shift {A} (l : list A) (a d : A) :
  last (a :: l) d = last l a.
Proof.
  destruct l as [| b l]; [reflexivity |].
  change (last (b :: l) d = last (b :: l) a).
  apply last_default_irrelevant.
Qed.

Lemma skipn_length_app {A} (l1 l2 : list A) :
  skipn (length l1) (l1 ++ l2) = l2.
Proof. induction l1 as [| a l1 IH]; simpl; auto. Qed.

(** ** Register transport *)

Section TransportFacts.

Variable Bus : Type.
Variable xfer : i2c_msg -> Bus -> xfer_result * Bus.

(** The retry loop: it issues [msg] again and again, stops at the first
    transfer that goes through, and gives up after [n] tries. *)
Lemma transfer_loop_spec line msg n tries r0 (w : World Bus) :
  exists rs w',
    transfer_loop xfer line msg n tries r0 w = Some (last rs r0, w') /\
    wire w' = wire w ++ map (pair msg) rs /\
    dmesg w' = dmesg w ++ failure_lines line tries rs /\
    (length rs <= n)%nat /\
    (n <> 0%nat -> rs <> []) /\
    Forall failed (removelast rs) /\
    (failed (last rs r0) -> length rs = n).
Proof.
  revert tries r0 w.
  induction n as [| n IH]; intros tries r0 w.
  - exists [], w. simpl. rewrite !app_nil_r.
    repeat split; auto.
  - simpl. unfold mbind at 1. unfold i2c_transfer at 1.
    destruct (xfer msg (bus w)) as [r b] eqn:X.
    destruct (xr_ret r =? 1) eqn:R.
    + exists [r]. eexists. simpl. rewrite R, app_nil_r.
      repeat split; auto; try lia.
      * discriminate.
      * intros F. apply Z.eqb_eq in R. contradiction.
    + unfold mbind at 1. unfold printk at 1.
      match goal with
      | |- context [transfer_loop _ _ _ n ?t r ?w1] =>
          destruct (IH t r w1) as (rs & w' & E & W & D & L & _ & F & X')
      end.
      exists (r :: rs), w'. rewrite last_cons_shift.
      split; [exact E |].
      split; [rewrite W; simpl; rewrite <- app_assoc; reflexivity |].
      split; [rewrite D; simpl; rewrite R, <- app_assoc; reflexivity |].
      split; [simpl; lia |].
      split; [discriminate |].
      split.
      * destruct rs as [| r1 rs]; [constructor |].
        change (Forall failed (r :: removelast (r1 :: rs))).
        constructor; [| exact F].
        unfold failed. apply Z.eqb_neq. exact R.
      * intros Hf. simpl. f_equal. apply X'. exact Hf.
Qed.

(** The result of a loop over at least one try is the result of its
    last transfer. *)
Lemma transfer_loop_attempts line msg (w : World Bus) :
  exists rs w',
    transfer_loop xfer line msg (Z.to_nat max_tries) 0 no_result w
      = Some (last rs no_result, w') /\
    wire w' = wire w ++ map (pair msg) rs /\
    dmesg w' = dmesg w ++ failure_lines line 0 rs /\
    attempts rs /\
    (failed (last rs no_result) -> exhausted rs).
Proof.
  destruct (transfer_loop_spec line msg (Z.to_nat max_tries) 0 no_result w)
    as (rs & w' & E & W & D & L & N & F & X).
  exists rs, w'. split; [exact E |]. split; [exact W |]. split; [exact D |].
  split.
  - split; [| exact F]. split; [| exact L].
    destruct rs as [| r rs]; [| simpl; lia].
    exfalso. apply N; [| reflexivity]. discriminate.
  - intros Hf. split; [apply X; exact Hf | exact Hf].
Qed.

(** What one byte read does on the bus, and what it returns. *)
Lemma read_byte_register_run reg (w : World Bus) :
  exists wr rd v w',
    read_byte_register xfer reg w = Some (v, w') /\
    wire w' = wire w ++ map (pair (write_msg reg)) wr
                     ++ map (pair read_msg) rd /\
    attempts wr /\
    ((exhausted wr /\ rd = [] /\ v = 0x00) \/
     (succeeded wr /\ attempts rd /\
      ((exhausted rd /\ v = 0x00) \/
       (succeeded rd /\ v = received rd)))).
Proof.
  destruct (transfer_loop_attempts (WriteFailed reg) (write_msg reg) w)
    as (wr & w1 & E1 & W1 & _ & A1 & X1).
  unfold read_byte_register.
  rewrite (mbind_run _ _ _ _ _ E1).
  destruct (xr_ret (last wr no_result) =? 1) eqn:R1; simpl.
  - destruct (transfer_loop_attempts (ReadFailed reg) read_msg w1)
      as (rd & w2 & E2 & W2 & _ & A2 & X2).
    rewrite (mbind_run _ _ _ _ _ E2).
    apply Z.eqb_eq in R1.
    destruct (xr_ret (last rd no_result) =? 1) eqn:R2; simpl.
    + exists wr, rd. do 2 eexists. split; [reflexivity |].
      split; [rewrite W2, W1, <- app_assoc; reflexivity |].
      split; [exact A1 |]. right. split; [exact R1 |].
      split; [exact A2 |]. right. apply Z.eqb_eq in R2.
      split; [exact R2 | reflexivity].
    + exists wr, rd. do 2 eexists. split; [reflexivity |].
      split; [rewrite W2, W1, <- app_assoc; reflexivity |].
      split; [exact A1 |]. right. split; [exact R1 |].
      split; [exact A2 |]. left. apply Z.eqb_neq in R2.
      split; [apply X2; exact R2 | reflexivity].
  - exists wr, []. do 2 eexists. split; [reflexivity |].
    split; [rewrite W1; simpl; rewrite app_nil_r; reflexivity |].
    split; [exact A1 |]. left. apply Z.eqb_neq in R1.
    split; [apply X1; exact R1 |]. split; reflexivity.
Qed.

(** A byte read always returns, and returns a byte. *)
Lemma read_byte_register_total reg (w : World Bus) :
  exists v w', read_byte_register xfer reg w = Some (v, w') /\ 0 <= v < 256.
Proof.
  destruct (read_byte_register_run reg w)
    as (wr & rd & v & w' & E & _ & _ & [(_ & _ & V) | (_ & _ & [(_ & V) | (_ & V)])]).
  - exists v, w'. split; [exact E | rewrite V; lia].
  - exists v, w'. split; [exact E | rewrite V; lia].
  - exists v, w'. split; [exact E |]. rewrite V. apply u8_range.
Qed.

(** A word read is two byte reads, the high byte first, and always
    returns a 16-bit value. *)
Lemma read_word_register_run reg (w : World Bus) :
  exists hi lo w1 w2,
    read_byte_register xfer (u8 (reg + 1)) w = Some (hi, w1) /\
    read_byte_register xfer reg w1 = Some (lo, w2) /\
    read_word_register xfer reg w = Some (lo + 256 * hi, w2) /\
    0 <= hi < 256 /\ 0 <= lo < 256.
Proof.
  destruct (read_byte_register_total (u8 (reg + 1)) w) as (hi & w1 & E1 & Hh).
  destruct (read_byte_register_total reg w1) as (lo & w2 & E2 & Hl).
  exists hi, lo, w1, w2. split; [exact E1 |]. split; [exact E2 |].
  split; [| split; assumption].
  unfold read_word_register.
  rewrite (mbind_run _ _ _ _ _ E1), (mbind_run _ _ _ _ _ E2).
  unfold mret. rewrite lor_high_low by exact Hl.
  rewrite u16_small by lia. reflexivity.
Qed.

Lemma read_word_register_total reg (w : World Bus) :
  exists v w', read_word_register xfer reg w = Some (v, w') /\ 0 <= v < 65536.
Proof.
  destruct (read_word_register_run reg w) as (hi & lo & w1 & w2 & _ & _ & E & Hh & Hl).
  exists (lo + 256 * hi), w2. split; [exact E | lia].
Qed.

End TransportFacts.

(** ** Telemetry derivation *)

Lemma land_pow2_bit s k :
  0 <= k -> Z.land s (2 ^ k) = if Z.testbit s k then 2 ^ k else 0.
Proof.
  intros Hk. apply Z.bits_inj'. intros n Hn.
  rewrite Z.land_spec, Z.pow2_bits_eqb by exact Hk.
  destruct (Z.eqb_spec k n) as [-> | Hne].
  - rewrite andb_true_r. destruct (Z.testbit s n) eqn:B.
    + rewrite Z.pow2_bits_true by exact Hn. reflexivity.
    + rewrite Z.bits_0. reflexivity.
  - rewrite andb_false_r. destruct (Z.testbit s k).
    + rewrite Z.pow2_bits_false by exact Hne. reflexivity.
    + rewrite Z.bits_0. reflexivity.
Qed.

Section DerivationFacts.

Variable Bus : Type.
Variable xfer : i2c_msg -> Bus -> xfer_result * Bus.

(** The guards [if (unlikely(!x))]. *)
Lemma unlikely_not x :
  negb (unlikely (if x =? 0 then 1 else 0) =? 0) = (x =? 0).
Proof. unfold unlikely. destruct (x =? 0); reflexivity. Qed.

Lemma battery_energy_run (w : World Bus) :
  exists word w',
    read_word_register xfer BATTERY_REGISTER_ENERGY w = Some (word, w') /\
    0 <= word < 65536 /\
    battery_energy xfer w = Some (word * 10, w').
Proof.
  destruct (read_word_register_total Bus xfer BATTERY_REGISTER_ENERGY w)
    as (word & w' & E & R).
  exists word, w'. split; [exact E |]. split; [exact R |].
  unfold battery_energy. step E. unfold mret.
  rewrite u32_small by lia. reflexivity.
Qed.

Lemma battery_voltage_run (w : World Bus) :
  exists v w',
    read_word_register xfer BATTERY_REGISTER_VOLTAGE w = Some (v, w') /\
    0 <= v < 65536 /\
    battery_voltage xfer w = Some (v, w').
Proof.
  destruct (read_word_register_total Bus xfer BATTERY_REGISTER_VOLTAGE w)
    as (v & w' & E & R).
  exists v, w'. split; [exact E |]. split; [exact R |].
  unfold battery_voltage. step E. reflexivity.
Qed.

Lemma battery_rate_run (w : World Bus) :
  exists raw v w1 w2,
    read_word_register xfer BATTERY_REGISTER_RATE w = Some (raw, w1) /\
    battery_voltage xfer w1 = Some (v, w2) /\
    0 <= raw < 65536 /\ 0 <= v < 65536 /\
    battery_rate xfer w
      = Some ((if raw >? 0x7FFF then 0x10000 - raw else raw) * v, w2).
Proof.
  destruct (read_word_register_total Bus xfer BATTERY_REGISTER_RATE w)
    as (raw & w1 & E1 & R1).
  destruct (battery_voltage_run w1) as (v & w2 & _ & R2 & E2).
  exists raw, v, w1, w2. repeat (split; [assumption || lia |]).
  unfold battery_rate. step E1. step E2. unfold mret.
  destruct (Z.gtb_spec raw 0x7FFF) as [Hgt | Hle].
  - rewrite (u32_small (0x10000 - raw)) by lia.
    rewrite u32_small by nia. reflexivity.
  - rewrite u32_small by nia. reflexivity.
Qed.

Lemma battery_rate_range (w : World Bus) :
  exists r w', battery_rate xfer w = Some (r, w') /\ 0 <= r < 4294967296.
Proof.
  destruct (battery_rate_run w) as (raw & v & w1 & w2 & _ & _ & R1 & R2 & E).
  eexists. exists w2. split; [exact E |].
  destruct (Z.gtb_spec raw 0x7FFF); nia.
Qed.

Lemma battery_status_run (w : World Bus) :
  exists status w',
    read_byte_register xfer BATTERY_REGISTER_STATUS w = Some (status, w') /\
    0 <= status < 256 /\
    battery_status xfer w
      = Some (if Z.testbit status 0 then POWER_SUPPLY_STATUS_DISCHARGING
              else if Z.testbit status 1 then POWER_SUPPLY_STATUS_CHARGING
              else POWER_SUPPLY_STATUS_FULL, w').
Proof.
  destruct (read_byte_register_total Bus xfer BATTERY_REGISTER_STATUS w)
    as (status & w' & E & R).
  exists status, w'. split; [exact E |]. split; [exact R |].
  unfold battery_status. step E.
  pose proof (land_pow2_bit status 0 ltac:(lia)) as B0.
  pose proof (land_pow2_bit status 1 ltac:(lia)) as B1.
  change (2 ^ 0) with 1 in B0. change (2 ^ 1) with 2 in B1.
  change 0x01 with 1. change 0x02 with 2. change 0x03 with 3.
  change 0x00 with 0.
  destruct (Z.testbit status 0); rewrite B0; [reflexivity |].
  destruct (Z.testbit status 1); rewrite B1; [reflexivity |].
  rewrite (land3_of_land1_land2 status B0 B1). reflexivity.
Qed.

Lemma battery_capacity_run (w : World Bus) :
  exists e w',
    battery_energy xfer w = Some (e, w') /\
    0 <= e <= 655350 /\
    battery_capacity xfer w = Some (100 * e / 37500, w').
Proof.
  destruct (battery_energy_run w) as (word & w' & _ & R & E).
  exists (word * 10), w'. split; [exact E |]. split; [lia |].
  unfold battery_capacity, battery_energy_full.
  unfold mbind at 1. unfold mret at 1. rewrite unlikely_not.
  change (37500 =? 0) with false. cbv iota.
  step E. unfold mbind, mret, udiv.
  change (37500 =? 0) with false. cbv iota.
  rewrite u32_small by lia. reflexivity.
Qed.

Lemma battery_capaity_level_run (w : World Bus) :
  exists c w',
    battery_capacity xfer w = Some (c, w') /\
    0 <= c <= 1747 /\
    battery_capaity_level xfer w
      = Some (if c =? 100 then POWER_SUPPLY_CAPACITY_LEVEL_FULL
              else if c <=? 5 then POWER_SUPPLY_CAPACITY_LEVEL_CRITICAL
              else if c <=? 15 then POWER_SUPPLY_CAPACITY_LEVEL_LOW
              else POWER_SUPPLY_CAPACITY_LEVEL_NORMAL, w').
Proof.
  destruct (battery_capacity_run w) as (e & w' & _ & R & E).
  exists (100 * e / 37500), w'. split; [exact E |].
  split.
  - split; [apply Z.div_pos; lia |].
    assert (100 * e / 37500 < 1748) by (apply Z.div_lt_upper_bound; lia).
    lia.
  - unfold battery_capaity_level. step E.
    destruct (100 * e / 37500 =? 100); [reflexivity |].
    destruct (100 * e / 37500 <=? 5); [reflexivity |].
    destruct (100 * e / 37500 <=? 15); reflexivity.
Qed.

Lemma battery_time_to_empty_run (w : World Bus) :
  exists rate w1,
    battery_rate xfer w = Some (rate, w1) /\
    ((rate = 0 /\ battery_time_to_empty xfer w = Some (0, w1)) \/
     (rate <> 0 /\
      exists e w2,
        battery_energy xfer w1 = Some (e, w2) /\
        battery_time_to_empty xfer w
          = Some (u32 (e * 3600000 / rate), w2))).
Proof.
  destruct (battery_rate_range w) as (rate & w1 & E1 & R1).
  exists rate, w1. split; [exact E1 |].
  unfold battery_time_to_empty. step E1. rewrite unlikely_not.
  destruct (Z.eqb_spec rate 0) as [-> | Hnz]; cbv iota.
  - left. split; reflexivity.
  - right. split; [exact Hnz |].
    destruct (battery_energy_run w1) as (word & w2 & _ & R & E2).
    exists (word * 10), w2. split; [exact E2 |].
    step E2. unfold udiv.
    destruct (Z.eqb_spec rate 0) as [? | _]; [contradiction |].
    unfold mbind, mret.
    rewrite (u64_small (word * 10 * 60)) by lia.
    rewrite (u64_small (word * 10 * 60 * 60)) by lia.
    rewrite (u64_small (word * 10 * 60 * 60 * 1000)) by lia.
    do 2 f_equal. f_equal. f_equal. lia.
Qed.

(** The shortfall is never reset: the test compares 0 or 1 with 0. *)
Lemma unlikely_never_negative x : (unlikely x <? 0) = false.
Proof. unfold unlikely. destruct (x =? 0); reflexivity. Qed.

Lemma s32_of_shortfall e :
  0 <= e <= 655350 -> s32 (u32 (37500 - e)) = 37500 - e.
Proof.
  intros He. unfold s32, u32. rewrite Z.mod_mod by (cbv; discriminate).
  change (2 ^ 32) with 4294967296. change (2 ^ 31) with 2147483648.
  destruct (Z_le_gt_dec e 37500) as [Hle | Hgt].
  - rewrite Z.mod_small by lia.
    destruct (Z.ltb_spec (37500 - e) 2147483648); lia.
  - replace ((37500 - e) mod 4294967296) with (37500 - e + 4294967296).
    + destruct (Z.ltb_spec (37500 - e + 4294967296) 2147483648); lia.
    + apply Z.mod_unique with (-1); lia.
Qed.

Lemma u64_scale x :
  u64 (u64 (u64 (u64 x * 60) * 60) * 1000) = u64 (x * 3600000).
Proof.
  unfold u64.
  rewrite (Z.mul_mod_idemp_l x 60) by (cbv; discriminate).
  rewrite (Z.mul_mod_idemp_l (x * 60) 60) by (cbv; discriminate).
  rewrite (Z.mul_mod_idemp_l (x * 60 * 60) 1000) by (cbv; discriminate).
  f_equal. lia.
Qed.

Lemma battery_time_to_full_run (w : World Bus) :
  exists rate w1,
    battery_rate xfer w = Some (rate, w1) /\
    ((rate = 0 /\ battery_time_to_full xfer w = Some (0, w1)) \/
     (rate <> 0 /\
      exists e w2,
        battery_energy xfer w1 = Some (e, w2) /\
        battery_time_to_full xfer w
          = Some (u32 (u64 ((37500 - e) * 3600000) / rate), w2))).
Proof.
  destruct (battery_rate_range w) as (rate & w1 & E1 & R1).
  exists rate, w1. split; [exact E1 |].
  unfold battery_time_to_full. step E1. rewrite unlikely_not.
  destruct (Z.eqb_spec rate 0) as [-> | Hnz]; cbv iota.
  - left. split; reflexivity.
  - right. split; [exact Hnz |].
    destruct (battery_energy_run w1) as (word & w2 & _ & R & E2).
    exists (word * 10), w2. split; [exact E2 |].
    unfold battery_energy_full. unfold mbind at 1. unfold mret at 1.
    step E2. rewrite unlikely_never_negative.
    rewrite s32_of_shortfall by lia. rewrite u64_scale.
    unfold udiv.
    destruct (Z.eqb_spec rate 0) as [? | _]; [contradiction |].
    reflexivity.
Qed.

Lemma battery_current_run (w : World Bus) :
  exists v w1,
    battery_voltage xfer w = Some (v, w1) /\
    ((v = 0 /\ battery_current xfer w = Some (0, w1)) \/
     (v <> 0 /\
      exists r w2,
        battery_rate xfer w1 = Some (r, w2) /\
        battery_current xfer w = Some (r / v, w2))).
Proof.
  destruct (battery_voltage_run w) as (v & w1 & _ & R & E1).
  exists v, w1. split; [exact E1 |].
  unfold battery_current. step E1. rewrite unlikely_not.
  destruct (Z.eqb_spec v 0) as [-> | Hnz]; cbv iota.
  - left. split; reflexivity.
  - right. split; [exact Hnz |].
    destruct (battery_rate_range w1) as (r & w2 & E2 & _).
    exists r, w2. split; [exact E2 |].
    step E2. unfold udiv.
    destruct (Z.eqb_spec v 0) as [? | _]; [contradiction | reflexivity].
Qed.

End DerivationFacts.

(** ** Property provider *)

Section ProviderFacts.

Variable Bus : Type.
Variable xfer : i2c_msg -> Bus -> xfer_result * Bus.

(** Every derivation returns, whatever the bus does. *)
Lemma derivations_total (w : World Bus) :
  (exists v w', battery_capacity xfer w = Some (v, w')) /\
  (exists v w', battery_status xfer w = Some (v, w')) /\
  (exists v w', battery_time_to_empty xfer w = Some (v, w')) /\
  (exists v w', battery_time_to_full xfer w = Some (v, w')) /\
  (exists v w', battery_voltage xfer w = Some (v, w')) /\
  (exists v w', battery_current xfer w = Some (v, w')) /\
  (exists v w', battery_energy xfer w = Some (v, w')) /\
  (exists v w', battery_capaity_level xfer w = Some (v, w')).
Proof.
  repeat split.
  - destruct (battery_capacity_run Bus xfer w) as (e & w' & _ & _ & E); eauto.
  - destruct (battery_status_run Bus xfer w) as (s & w' & _ & _ & E); eauto.
  - destruct (battery_time_to_empty_run Bus xfer w)
      as (r & w1 & _ & [(_ & E) | (_ & e & w2 & _ & E)]); eauto.
  - destruct (battery_time_to_full_run Bus xfer w)
      as (r & w1 & _ & [(_ & E) | (_ & e & w2 & _ & E)]); eauto.
  - destruct (battery_voltage_run Bus xfer w) as (v & w' & _ & _ & E); eauto.
  - destruct (battery_current_run Bus xfer w)
      as (v & w1 & _ & [(_ & E) | (_ & r & w2 & _ & E)]); eauto.
  - destruct (battery_energy_run Bus xfer w) as (e & w' & _ & _ & E); eauto.
  - destruct (battery_capaity_level_run Bus xfer w) as (c & w' & _ & _ & E); eauto.
Qed.

(** A known identifier is answered with success, and the answer does
    not depend on what [*val] held before. *)
Lemma battery_get_property_known p (w : World Bus) :
  In p known_properties ->
  exists val' w',
    forall val,
      battery_get_property xfer p val w = Some ((0, val'), w').
Proof.
  intros Hin.
  destruct (derivations_total w)
    as ((c & wc & Ec) & (s & ws & Es) & (te & wte & Ete) & (tf & wtf & Etf)
        & (v & wv & Ev) & (i & wi & Ei) & (e & we & Ee) & (l & wl & El)).
  destruct p; simpl in Hin;
    try (exfalso; repeat (destruct Hin as [Hin | Hin]; [discriminate |]);
         exact Hin);
    unfold battery_get_property.
  - do 2 eexists. intros val. step Es. reflexivity.
  - do 2 eexists. intros val. step Ec. reflexivity.
  - do 2 eexists. intros val. step Ete. reflexivity.
  - do 2 eexists. intros val. step Etf. reflexivity.
  - do 2 eexists. intros val. step Ev. reflexivity.
  - do 2 eexists. intros val. step Ei. reflexivity.
  - do 2 eexists. intros val. reflexivity.
  - do 2 eexists. intros val. reflexivity.
  - do 2 eexists. intros val. step Ee. reflexivity.
  - do 2 eexists. intros val. reflexivity.
  - do 2 eexists. intros val. reflexivity.
  - do 2 eexists. intros val. reflexivity.
  - do 2 eexists. intros val. step El. reflexivity.
Qed.

(** Any other identifier is refused: one log line, [-EINVAL], [*val]
    left as it was, nothing on the bus. *)
Lemma battery_get_property_unknown p val (w : World Bus) :
  ~ In p known_properties ->
  battery_get_property xfer p val w
    = Some ((- EINVAL, val),
            {| bus := bus w; wire := wire w;
               dmesg := dmesg w ++ [UnknownReport] |}).
Proof.
  intros Hn. destruct p; try (exfalso; apply Hn; simpl; tauto).
  reflexivity.
Qed.

Lemma known_properties_dec p :
  {In p known_properties} + {~ In p known_properties}.
Proof.
  destruct p; try (left; simpl; tauto).
  right. simpl. intros H.
  repeat (destruct H as [H | H]; [discriminate |]). exact H.
Qed.

End ProviderFacts.

(** Every advertised identifier has a case in [battery_get_property]. *)
Lemma advertised_are_known p :
  In p battery_properties -> In p known_properties.
Proof.
  intros H. simpl in H.
  repeat (destruct H as [<- | H]; [simpl; tauto |]). contradiction.
Qed.

(** The capacity level has a case, although it is not advertised. *)
Lemma capacity_level_known_not_advertised :
  In POWER_SUPPLY_PROP_CAPACITY_LEVEL known_properties /\
  ~ In POWER_SUPPLY_PROP_CAPACITY_LEVEL battery_properties.
Proof.
  split; [simpl; tauto |].
  simpl. intros H.
  repeat (destruct H as [H | H]; [discriminate |]). exact H.
Qed.

(** ** A bus on which every transfer fails *)

Section SilentBus.

Variable Bus : Type.
Variable xfer : i2c_msg -> Bus -> xfer_result * Bus.
Hypothesis silent : every_transfer_fails xfer.

Lemma transfer_loop_silent line msg n tries r0 (w : World Bus) :
  failed r0 ->
  exists r w',
    transfer_loop xfer line msg n tries r0 w = Some (r, w') /\ failed r.
Proof.
  revert tries r0 w. induction n as [| n IH]; intros tries r0 w F0.
  - exists r0, w. split; [reflexivity | exact F0].
  - simpl. unfold mbind at 1. unfold i2c_transfer at 1.
    pose proof (silent msg (bus w)) as F.
    destruct (xfer msg (bus w)) as [r b]. simpl in F.
    destruct (Z.eqb_spec (xr_ret r) 1) as [E | _]; [contradiction |].
    unfold mbind at 1. unfold printk at 1.
    apply IH. exact F.
Qed.

Lemma read_byte_register_silent reg (w : World Bus) :
  exists w', read_byte_register xfer reg w = Some (0, w').
Proof.
  destruct (transfer_loop_silent (WriteFailed reg) (write_msg reg)
              (Z.to_nat max_tries) 0 no_result w)
    as (r & w' & E & F); [unfold failed; simpl; lia |].
  exists w'. unfold read_byte_register. step E.
  destruct (Z.eqb_spec (xr_ret r) 1) as [? | _]; [contradiction |].
  reflexivity.
Qed.

Lemma read_word_register_silent reg (w : World Bus) :
  exists w', read_word_register xfer reg w = Some (0, w').
Proof.
  destruct (read_byte_register_silent (u8 (reg + 1)) w) as (w1 & E1).
  destruct (read_byte_register_silent reg w1) as (w2 & E2).
  exists w2. unfold read_word_register. step E1. step E2. reflexivity.
Qed.

Lemma battery_energy_silent (w : World Bus) :
  exists w', battery_energy xfer w = Some (0, w').
Proof.
  destruct (read_word_register_silent BATTERY_REGISTER_ENERGY w) as (w1 & E).
  exists w1. unfold battery_energy. step E. reflexivity.
Qed.

Lemma battery_voltage_silent (w : World Bus) :
  exists w', battery_voltage xfer w = Some (0, w').
Proof.
  destruct (read_word_register_silent BATTERY_REGISTER_VOLTAGE w) as (w1 & E).
  exists w1. unfold battery_voltage. step E. reflexivity.
Qed.

Lemma battery_rate_silent (w : World Bus) :
  exists w', battery_rate xfer w = Some (0, w').
Proof.
  destruct (read_word_register_silent BATTERY_REGISTER_RATE w) as (w1 & E1).
  destruct (battery_voltage_silent w1) as (w2 & E2).
  exists w2. unfold battery_rate. step E1. step E2. reflexivity.
Qed.

Lemma battery_status_silent (w : World Bus) :
  exists w', battery_status xfer w = Some (POWER_SUPPLY_STATUS_FULL, w').
Proof.
  destruct (read_byte_register_silent BATTERY_REGISTER_STATUS w) as (w1 & E).
  exists w1. unfold battery_status. step E. reflexivity.
Qed.

Lemma battery_capacity_silent (w : World Bus) :
  exists w', battery_capacity xfer w = Some (0, w').
Proof.
  destruct (battery_energy_silent w) as (w1 & E).
  exists w1. unfold battery_capacity, battery_energy_full.
  unfold mbind at 1. unfold mret at 1.
  change (negb (unlikely (if 37500 =? 0 then 1 else 0) =? 0)) with false.
  cbv iota. step E. reflexivity.
Qed.

Lemma battery_capaity_level_silent (w : World Bus) :
  exists w',
    battery_capaity_level xfer w
      = Some (POWER_SUPPLY_CAPACITY_LEVEL_CRITICAL, w').
Proof.
  destruct (battery_capacity_silent w) as (w1 & E).
  exists w1. unfold battery_capaity_level. step E. reflexivity.
Qed.

Lemma battery_time_to_empty_silent (w : World Bus) :
  exists w', battery_time_to_empty xfer w = Some (0, w').
Proof.
  destruct (battery_rate_silent w) as (w1 & E).
  exists w1. unfold battery_time_to_empty. step E. reflexivity.
Qed.

Lemma battery_time_to_full_silent (w : World Bus) :
  exists w', battery_time_to_full xfer w = Some (0, w').
Proof.
  destruct (battery_rate_silent w) as (w1 & E).
  exists w1. unfold battery_time_to_full. step E. reflexivity.
Qed.

Lemma battery_current_silent (w : World Bus) :
  exists w', battery_current xfer w = Some (0, w').
Proof.
  destruct (battery_voltage_silent w) as (w1 & E).
  exists w1. unfold battery_current. step E. reflexivity.
Qed.

End SilentBus.

(** ** What goes over the wire *)

Section WireFacts.

Variable Bus : Type.
Variable xfer : i2c_msg -> Bus -> xfer_result * Bus.

Lemma filter_write_msgs reg (rs : list xfer_result) :
  filter is_write (map (pair (write_msg reg)) rs)
    = map (pair (write_msg reg)) rs.
Proof. induction rs as [| r rs IH]; simpl; [| rewrite IH]; reflexivity. Qed.

Lemma filter_read_msgs (rs : list xfer_result) :
  filter is_write (map (pair read_msg) rs) = [].
Proof. induction rs as [| r rs IH]; simpl; auto. Qed.

Lemma wire_bytes_write_msgs reg (rs : list xfer_result) :
  map (fun e : i2c_msg * xfer_result => wire_bytes (fst e))
      (map (pair (write_msg reg)) rs)
    = repeat [0x02; 0x80; reg; 0x00; 0x00] (length rs).
Proof. induction rs as [| r rs IH]; simpl; [| rewrite IH]; reflexivity. Qed.

Lemma issued_by_read_byte reg (w : World Bus) :
  exists wr rd,
    issued (read_byte_register xfer reg) w
      = map (pair (write_msg reg)) wr ++ map (pair read_msg) rd /\
    attempts wr.
Proof.
  destruct (read_byte_register_run Bus xfer reg w)
    as (wr & rd & v & w' & E & W & A & _).
  exists wr, rd. split; [| exact A].
  unfold issued. rewrite (run_exec _ _ _ _ E), W.
  apply skipn_length_app.
Qed.

Lemma write_phase_of_read_byte reg (w : World Bus) :
  exists n,
    (1 <= n <= 5)%nat /\
    write_phase_sent (read_byte_register xfer reg) w
      = repeat [0x02; 0x80; reg; 0x00; 0x00] n.
Proof.
  destruct (issued_by_read_byte reg w) as (wr & rd & I & A).
  exists (length wr). split; [exact (proj1 A) |].
  unfold write_phase_sent. rewrite I.
  rewrite filter_app, filter_write_msgs, filter_read_msgs.
  rewrite app_nil_r. apply wire_bytes_write_msgs.
Qed.

Lemma addressed_to_battery reg (w : World Bus) :
  Forall (fun e : i2c_msg * xfer_result =>
            msg_addr (fst e) = BATTERY_I2C_ADDRESS)
         (issued (read_byte_register xfer reg) w).
Proof.
  destruct (issued_by_read_byte reg w) as (wr & rd & I & _).
  rewrite I. clear I. apply Forall_app. split.
  - induction wr as [| r wr IH]; simpl;
      [constructor | constructor; [reflexivity | exact IH]].
  - induction rd as [| r rd IH]; simpl;
      [constructor | constructor; [reflexivity | exact IH]].
Qed.

End WireFacts.

Lemma known_properties_spec p :
  In p known_properties <->
  In p battery_properties \/ p = POWER_SUPPLY_PROP_CAPACITY_LEVEL.
Proof.
  split.
  - intros H. simpl in H.
    repeat (destruct H as [<- | H]; [simpl; tauto |]). contradiction.
  - intros [H | ->]; [apply advertised_are_known; exact H | simpl; tauto].
Qed.

(** ** The simulated controller delivers what its registers hold *)

(** With nothing left in the script, a byte read returns the byte of the
    register and leaves the registers and the script as they were. *)
Lemma sim_read_byte reg (w : World SimBus.sim) :
  SimBus.script (bus w) = [] ->
  eval (read_byte_register SimBus.xfer reg) w
    = Some (u8 (SimBus.lookup reg (SimBus.regs (bus w)))) /\
  SimBus.regs (bus (exec (read_byte_register SimBus.xfer reg) w))
    = SimBus.regs (bus w) /\
  SimBus.script (bus (exec (read_byte_register SimBus.xfer reg) w)) = [].
Proof.
  destruct w as [[rs sel sc] wi dm]. simpl. intros ->.
  split; [| split; reflexivity].
  change (Some (u8 (u8 (SimBus.lookup reg rs)))
          = Some (u8 (SimBus.lookup reg rs))).
  unfold u8. rewrite Z.mod_mod by (cbv; discriminate). reflexivity.
Qed.

(** A word read returns the two registers, the one at [reg] as the low
    byte. *)
Lemma sim_read_word reg (w : World SimBus.sim) :
  SimBus.script (bus w) = [] ->
  eval (read_word_register SimBus.xfer reg) w
    = Some (Z.lor (u8 (SimBus.lookup reg (SimBus.regs (bus w))))
                  (Z.shiftl
                     (u8 (SimBus.lookup (u8 (reg + 1)) (SimBus.regs (bus w))))
                     8)).
Proof.
  intros Hs.
  destruct (sim_read_byte (u8 (reg + 1)) w Hs) as (V1 & R1 & S1).
  destruct (sim_read_byte reg _ S1) as (V2 & _ & _).
  rewrite R1 in V2.
  destruct (read_word_register_run _ SimBus.xfer reg w)
    as (hi & lo & w1 & w2 & E1 & E2 & E & Hh & Hl).
  rewrite (run_eval _ _ _ _ E1) in V1.
  rewrite (run_exec _ _ _ _ E1), (run_eval _ _ _ _ E2) in V2.
  inversion V1; inversion V2; subst hi lo.
  rewrite (run_eval _ _ _ _ E).
  rewrite Z.lor_comm, lor_high_low by exact Hl. reflexivity.
Qed.

(** * Main results *)

Section MainResults.

Variable Bus : Type.
Variable xfer : i2c_msg -> Bus -> xfer_result * Bus.

(** C3.  A byte read issues between one and five write transfers, each
    after a failed one; when the fifth fails too it returns 0x00
    without issuing any read transfer.  After a write transfer that
    went through it issues between one and five read transfers in the
    same way; when all five fail it returns 0x00, otherwise the byte
    the successful transfer delivered.  Each failed transfer is logged
    with the register, the result and the number of the try.  In every
    case the function returns a value: no error reaches the caller. *)
Theorem read_byte_register_retries reg (w : World Bus) :
  exists wr rd v w',
    read_byte_register xfer reg w = Some (v, w') /\
    wire w' = wire w ++ map (pair (write_msg reg)) wr
                     ++ map (pair read_msg) rd /\
    dmesg w' = dmesg w ++ failure_lines (WriteFailed reg) 0 wr
                       ++ failure_lines (ReadFailed reg) 0 rd /\
    attempts wr /\
    ((exhausted wr /\ rd = [] /\ v = 0x00) \/
     (succeeded wr /\ attempts rd /\
      ((exhausted rd /\ v = 0x00) \/
       (succeeded rd /\ v = received rd)))).
Proof.
  destruct (transfer_loop_attempts Bus xfer (WriteFailed reg) (write_msg reg) w)
    as (wr & w1 & E1 & W1 & D1 & A1 & X1).
  unfold read_byte_register. step E1.
  destruct (Z.eqb_spec (xr_ret (last wr no_result)) 1) as [R1 | R1];
    cbv [negb].
  - destruct (transfer_loop_attempts Bus xfer (ReadFailed reg) read_msg w1)
      as (rd & w2 & E2 & W2 & D2 & A2 & X2).
    step E2. exists wr, rd.
    assert (Hw : wire w2 = wire w ++ map (pair (write_msg reg)) wr
                                  ++ map (pair read_msg) rd)
      by (rewrite W2, W1, <- app_assoc; reflexivity).
    assert (Hd : dmesg w2 = dmesg w ++ failure_lines (WriteFailed reg) 0 wr
                                    ++ failure_lines (ReadFailed reg) 0 rd)
      by (rewrite D2, D1, <- app_assoc; reflexivity).
    destruct (Z.eqb_spec (xr_ret (last rd no_result)) 1) as [R2 | R2];
      cbv [negb].
    + exists (received rd), w2. split; [reflexivity |].
      split; [exact Hw |]. split; [exact Hd |]. split; [exact A1 |].
      right. split; [exact R1 |]. split; [exact A2 |].
      right. split; [exact R2 | reflexivity].
    + exists 0x00, w2. split; [reflexivity |].
      split; [exact Hw |]. split; [exact Hd |]. split; [exact A1 |].
      right. split; [exact R1 |]. split; [exact A2 |].
      left. split; [apply X2; exact R2 | reflexivity].
  - exists wr, [], 0x00, w1. split; [reflexivity |].
    split; [rewrite W1; simpl; rewrite app_nil_r; reflexivity |].
    split; [rewrite D1; simpl; rewrite app_nil_r; reflexivity |].
    split; [exact A1 |].
    left. split; [apply X1; exact R1 |]. split; reflexivity.
Qed.

(** C7, as the code has it.  Every write-phase transfer of a byte read
    is one message to the battery's address that carries five bytes:
    0x02, 0x80, the register address, 0x00, 0x00; between one and five
    such transfers are issued. *)
Theorem write_phase_sends_five_bytes reg (w : World Bus) :
  exists n,
    (1 <= n <= 5)%nat /\
    write_phase_sent (read_byte_register xfer reg) w
      = repeat [0x02; 0x80; reg; 0x00; 0x00] n /\
    Forall (fun e : i2c_msg * xfer_result =>
              msg_addr (fst e) = BATTERY_I2C_ADDRESS)
           (issued (read_byte_register xfer reg) w).
Proof.
  destruct (write_phase_of_read_byte Bus xfer reg w) as (n & Hn & E).
  exists n. split; [exact Hn |]. split; [exact E |].
  apply addressed_to_battery.
Qed.

(** C6.  For every register address, a word read is two byte reads, of
    [reg + 1] (as an 8-bit address) and of [reg], and its value is
    [read_byte(reg) | (read_byte(reg + 1) << 8)]: the byte at [reg] is
    the low byte and the byte at [reg + 1] the high byte. *)
Theorem read_word_register_composition reg (w : World Bus) :
  0 <= reg < 256 ->
  exists hi lo,
    eval (read_byte_register xfer (u8 (reg + 1))) w = Some hi /\
    eval (read_byte_register xfer reg)
         (exec (read_byte_register xfer (u8 (reg + 1))) w) = Some lo /\
    eval (read_word_register xfer reg) w
      = Some (Z.lor lo (Z.shiftl hi 8)) /\
    exec (read_word_register xfer reg) w
      = exec (read_byte_register xfer reg)
             (exec (read_byte_register xfer (u8 (reg + 1))) w) /\
    Z.lor lo (Z.shiftl hi 8) = lo + 256 * hi /\
    u8 (reg + 1) = (if reg =? 255 then 0 else reg + 1).
Proof.
  intros Hreg.
  destruct (read_word_register_run Bus xfer reg w)
    as (hi & lo & w1 & w2 & E1 & E2 & E & Hh & Hl).
  exists hi, lo.
  rewrite (run_eval _ _ _ _ E1), (run_exec _ _ _ _ E1).
  rewrite (run_eval _ _ _ _ E2), (run_exec _ _ _ _ E2).
  rewrite (run_eval _ _ _ _ E), (run_exec _ _ _ _ E).
  rewrite Z.lor_comm, lor_high_low by exact Hl.
  repeat split.
  destruct (Z.eqb_spec reg 255) as [-> | Hne]; [reflexivity |].
  apply u8_small. lia.
Qed.

(** C10.  Whatever byte the STATUS register delivers, the status is
    discharging when bit 0 is set, else charging when bit 1 is set,
    else full; it is never "unknown". *)
Theorem battery_status_never_unknown (w : World Bus) :
  exists status st,
    eval (read_byte_register xfer BATTERY_REGISTER_STATUS) w = Some status /\
    eval (battery_status xfer) w = Some st /\
    st = (if Z.testbit status 0 then POWER_SUPPLY_STATUS_DISCHARGING
          else if Z.testbit status 1 then POWER_SUPPLY_STATUS_CHARGING
          else POWER_SUPPLY_STATUS_FULL) /\
    (st = POWER_SUPPLY_STATUS_DISCHARGING \/
     st = POWER_SUPPLY_STATUS_CHARGING \/
     st = POWER_SUPPLY_STATUS_FULL) /\
    st <> POWER_SUPPLY_STATUS_UNKNOWN /\
    (Z.land status 0x01 <> 0 \/ Z.land status 0x02 <> 0 \/
     Z.land status 0x03 = 0x00).
Proof.
  destruct (battery_status_run Bus xfer w) as (status & w' & E1 & _ & E).
  exists status. eexists.
  split; [exact (run_eval _ _ _ _ E1) |].
  split; [exact (run_eval _ _ _ _ E) |].
  split; [reflexivity |].
  split; [| split].
  - destruct (Z.testbit status 0); [tauto |].
    destruct (Z.testbit status 1); tauto.
  - destruct (Z.testbit status 0); [discriminate |].
    destruct (Z.testbit status 1); discriminate.
  - destruct (Z.eq_dec (Z.land status 1) 0) as [B0 | B0]; [| left; exact B0].
    destruct (Z.eq_dec (Z.land status 2) 0) as [B1 | B1];
      [| right; left; exact B1].
    right; right. apply land3_of_land1_land2; assumption.
Qed.

(** C5.  The capacity level is FULL when the capacity is exactly 100,
    otherwise CRITICAL when it is at most 5, otherwise LOW when it is
    at most 15, otherwise NORMAL.  When the ENERGY register delivers
    the bytes low = 0x64, high = 0x00, the energy is 1000 mWh, the
    capacity is 100 * 1000 / 37500 = 2 and the level is CRITICAL. *)
Theorem capacity_level_thresholds (w : World Bus) :
  (exists c lvl,
     eval (battery_capacity xfer) w = Some c /\
     eval (battery_capaity_level xfer) w = Some lvl /\
     exec (battery_capaity_level xfer) w = exec (battery_capacity xfer) w /\
     ((c = 100 /\ lvl = POWER_SUPPLY_CAPACITY_LEVEL_FULL) \/
      (c <> 100 /\ c <= 5 /\ lvl = POWER_SUPPLY_CAPACITY_LEVEL_CRITICAL) \/
      (5 < c <= 15 /\ lvl = POWER_SUPPLY_CAPACITY_LEVEL_LOW) \/
      (15 < c /\ c <> 100 /\ lvl = POWER_SUPPLY_CAPACITY_LEVEL_NORMAL))) /\
  (eval (read_byte_register xfer (BATTERY_REGISTER_ENERGY + 1)) w
     = Some 0x00 ->
   eval (read_byte_register xfer BATTERY_REGISTER_ENERGY)
        (exec (read_byte_register xfer (BATTERY_REGISTER_ENERGY + 1)) w)
     = Some 0x64 ->
   eval (battery_energy xfer) w = Some 1000 /\
   eval (battery_capacity xfer) w = Some 2 /\
   eval (battery_capaity_level xfer) w
     = Some POWER_SUPPLY_CAPACITY_LEVEL_CRITICAL).
Proof.
  split.
  - destruct (battery_capaity_level_run Bus xfer w) as (c & w' & Ec & R & El).
    exists c. eexists.
    rewrite (run_eval _ _ _ _ Ec), (run_exec _ _ _ _ Ec).
    rewrite (run_eval _ _ _ _ El), (run_exec _ _ _ _ El).
    repeat (split; [reflexivity |]).
    destruct (Z.eqb_spec c 100) as [-> | H100]; [left; tauto |].
    destruct (Z.leb_spec c 5) as [H5 | H5]; [right; left; tauto |].
    destruct (Z.leb_spec c 15) as [H15 | H15].
    + right; right; left. split; [lia | reflexivity].
    + right; right; right. split; [lia |]. split; [exact H100 | reflexivity].
  - intros H1 H2. apply eval_run in H1. apply eval_run in H2.
    set (w1 := exec (read_byte_register xfer (BATTERY_REGISTER_ENERGY + 1)) w)
      in *.
    set (w2 := exec (read_byte_register xfer BATTERY_REGISTER_ENERGY) w1) in *.
    assert (Ew : read_word_register xfer BATTERY_REGISTER_ENERGY w
                 = Some (100, w2)).
    { unfold read_word_register.
      change (u8 (BATTERY_REGISTER_ENERGY + 1))
        with (BATTERY_REGISTER_ENERGY + 1).
      step H1. step H2. reflexivity. }
    assert (Ee : battery_energy xfer w = Some (1000, w2)).
    { unfold battery_energy. step Ew. reflexivity. }
    assert (Ec : battery_capacity xfer w = Some (2, w2)).
    { unfold battery_capacity, battery_energy_full.
      unfold mbind at 1. unfold mret at 1.
      change (negb (unlikely (if 37500 =? 0 then 1 else 0) =? 0)) with false.
      cbv iota. step Ee. reflexivity. }
    split; [exact (run_eval _ _ _ _ Ee) |].
    split; [exact (run_eval _ _ _ _ Ec) |].
    unfold eval, battery_capaity_level. step Ec. reflexivity.
Qed.

(** C4.  Whatever 16-bit word the RATE register delivers, the rate is
    the magnitude of that word read as a two's-complement number
    ([0x10000 - raw] when [raw > 0x7FFF], [raw] itself otherwise)
    times the voltage read next: 0x8000 gives the magnitude 0x8000,
    0x7FFF is left as it is, and a voltage of 0 gives the rate 0. *)
Theorem battery_rate_sign_magnitude (w : World Bus) raw v :
  eval (read_word_register xfer BATTERY_REGISTER_RATE) w = Some raw ->
  eval (battery_voltage xfer)
       (exec (read_word_register xfer BATTERY_REGISTER_RATE) w) = Some v ->
  0 <= raw <= 0xFFFF /\
  eval (battery_rate xfer) w
    = Some ((if raw >? 0x7FFF then 0x10000 - raw else raw) * v) /\
  (raw = 0x8000 -> eval (battery_rate xfer) w = Some (0x8000 * v)) /\
  (raw = 0x7FFF -> eval (battery_rate xfer) w = Some (0x7FFF * v)) /\
  (v = 0 -> eval (battery_rate xfer) w = Some 0).
Proof.
  intros H1 H2.
  destruct (battery_rate_run Bus xfer w)
    as (raw' & v' & w1 & w2 & E1 & E2 & R1 & R2 & E).
  rewrite (run_eval _ _ _ _ E1) in H1.
  rewrite (run_exec _ _ _ _ E1), (run_eval _ _ _ _ E2) in H2.
  inversion H1; subst raw'. inversion H2; subst v'.
  rewrite (run_eval _ _ _ _ E).
  split; [lia |]. split; [reflexivity |].
  split; [intros ->; reflexivity |].
  split; [intros ->; reflexivity |].
  intros ->. f_equal. apply Z.mul_0_r.
Qed.

(** C8.  The current is the rate divided by the voltage read first;
    when that voltage is 0 the current is 0 and nothing more is read
    or divided.  When the voltage reads 7400 mV and the RATE register
    delivers 0xFF9C (-100), the rate is 100 * 7400 = 740000 mW and the
    current is 740000 / 7400 = 100 mA. *)
Theorem battery_current_is_rate_over_voltage (w : World Bus) :
  (exists v,
     eval (battery_voltage xfer) w = Some v /\
     ((v = 0 /\
       battery_current xfer w = Some (0, exec (battery_voltage xfer) w)) \/
      (v <> 0 /\
       exists r,
         eval (battery_rate xfer) (exec (battery_voltage xfer) w) = Some r /\
         eval (battery_current xfer) w = Some (r / v)))) /\
  (eval (battery_voltage xfer) w = Some 7400 ->
   eval (read_word_register xfer BATTERY_REGISTER_RATE)
        (exec (battery_voltage xfer) w) = Some 0xFF9C ->
   eval (battery_voltage xfer)
        (exec (read_word_register xfer BATTERY_REGISTER_RATE)
              (exec (battery_voltage xfer) w)) = Some 7400 ->
   eval (battery_rate xfer) (exec (battery_voltage xfer) w) = Some 740000 /\
   eval (battery_current xfer) w = Some 100).
Proof.
  split.
  - destruct (battery_current_run Bus xfer w)
      as (v & w1 & E1 & [(Hz & E) | (Hnz & r & w2 & E2 & E)]).
    + exists v. rewrite (run_eval _ _ _ _ E1), (run_exec _ _ _ _ E1).
      split; [reflexivity |]. left. split; [exact Hz | exact E].
    + exists v. rewrite (run_eval _ _ _ _ E1), (run_exec _ _ _ _ E1).
      split; [reflexivity |]. right. split; [exact Hnz |].
      exists r. split; [exact (run_eval _ _ _ _ E2) |].
      exact (run_eval _ _ _ _ E).
  - intros H1 H2 H3.
    apply eval_run in H1. apply eval_run in H2. apply eval_run in H3.
    set (w1 := exec (battery_voltage xfer) w) in *.
    set (w2 := exec (read_word_register xfer BATTERY_REGISTER_RATE) w1) in *.
    set (w3 := exec (battery_voltage xfer) w2) in *.
    assert (Er : battery_rate xfer w1 = Some (740000, w3)).
    { unfold battery_rate. step H2. step H3. reflexivity. }
    split; [exact (run_eval _ _ _ _ Er) |].
    unfold eval, battery_current. step H1.
    change (negb (unlikely (if 7400 =? 0 then 1 else 0) =? 0)) with false.
    cbv iota. step Er. reflexivity.
Qed.

(** C9.  Every query returns.  For an identifier that has a case in
    the dispatch the return value is 0 and [*val] is filled in with a
    value that does not depend on its previous contents; for every
    other identifier the return value is [-EINVAL], a negative number,
    [*val] is left alone, one line is logged and the bus is not
    touched.  No other failure is reported. *)
Theorem battery_get_property_dispatch p val (w : World Bus) :
  exists rc val' w',
    battery_get_property xfer p val w = Some ((rc, val'), w') /\
    ((In p known_properties /\ rc = 0 /\
      forall val0,
        eval (battery_get_property xfer p val0) w = Some (0, val')) \/
     (~ In p known_properties /\ rc = - EINVAL /\ rc < 0 /\ val' = val /\
      wire w' = wire w /\ dmesg w' = dmesg w ++ [UnknownReport])).
Proof.
  destruct (known_properties_dec p) as [Hin | Hn].
  - destruct (battery_get_property_known Bus xfer p w Hin) as (val' & w' & E).
    exists 0, val', w'. split; [apply E |]. left.
    split; [exact Hin |]. split; [reflexivity |].
    intros val0. exact (run_eval _ _ _ _ (E val0)).
  - do 3 eexists.
    split; [apply battery_get_property_unknown; exact Hn |]. right.
    split; [exact Hn |]. repeat split.
Qed.

(** C1, as the code has it.  When every bus transfer fails, every query
    for a known identifier succeeds without a fault; capacity, time to
    empty, time to full, voltage, current and energy-now are 0, the
    status is FULL and the capacity level CRITICAL, and the fixed
    answers (present, technology, energy-full, the two names) are what
    they always are. *)
Theorem silent_bus_answers val (w : World Bus) :
  every_transfer_fails xfer ->
  eval (battery_get_property xfer POWER_SUPPLY_PROP_STATUS val) w
    = Some (0, intval POWER_SUPPLY_STATUS_FULL) /\
  eval (battery_get_property xfer POWER_SUPPLY_PROP_CAPACITY val) w
    = Some (0, intval 0) /\
  eval (battery_get_property xfer POWER_SUPPLY_PROP_TIME_TO_EMPTY_NOW val) w
    = Some (0, intval 0) /\
  eval (battery_get_property xfer POWER_SUPPLY_PROP_TIME_TO_FULL_NOW val) w
    = Some (0, intval 0) /\
  eval (battery_get_property xfer POWER_SUPPLY_PROP_VOLTAGE_NOW val) w
    = Some (0, intval 0) /\
  eval (battery_get_property xfer POWER_SUPPLY_PROP_CURRENT_NOW val) w
    = Some (0, intval 0) /\
  eval (battery_get_property xfer POWER_SUPPLY_PROP_ENERGY_NOW val) w
    = Some (0, intval 0) /\
  eval (battery_get_property xfer POWER_SUPPLY_PROP_CAPACITY_LEVEL val) w
    = Some (0, intval POWER_SUPPLY_CAPACITY_LEVEL_CRITICAL) /\
  eval (battery_get_property xfer POWER_SUPPLY_PROP_PRESENT val) w
    = Some (0, intval 1) /\
  eval (battery_get_property xfer POWER_SUPPLY_PROP_ENERGY_FULL val) w
    = Some (0, intval 37500000) /\
  eval (battery_get_property xfer POWER_SUPPLY_PROP_TECHNOLOGY val) w
    = Some (0, intval POWER_SUPPLY_TECHNOLOGY_LION) /\
  eval (battery_get_property xfer POWER_SUPPLY_PROP_MANUFACTURER val) w
    = Some (0, strval "Acer") /\
  eval (battery_get_property xfer POWER_SUPPLY_PROP_MODEL_NAME val) w
    = Some (0, strval "Acer Switch 11 Battery by jfrimmel").
Proof.
  intros silent.
  destruct (battery_status_silent Bus xfer silent w) as (ws & Es).
  destruct (battery_capacity_silent Bus xfer silent w) as (wc & Ec).
  destruct (battery_time_to_empty_silent Bus xfer silent w) as (wte & Ete).
  destruct (battery_time_to_full_silent Bus xfer silent w) as (wtf & Etf).
  destruct (battery_voltage_silent Bus xfer silent w) as (wv & Ev).
  destruct (battery_current_silent Bus xfer silent w) as (wi & Ei).
  destruct (battery_energy_silent Bus xfer silent w) as (we & Ee).
  destruct (battery_capaity_level_silent Bus xfer silent w) as (wl & El).
  unfold eval, battery_get_property.
  step Es. step Ec. step Ete. step Etf. step Ev. step Ei. step Ee. step El.
  repeat split.
Qed.

End MainResults.

(** * The results on concrete buses *)

Lemma read_word_register_composition_witness :
  0 <= 0xC2 < 256 /\
  exists hi lo,
    eval (read_byte_register SimBus.xfer (u8 (0xC2 + 1))) SimBus.energy_0164
      = Some hi /\
    eval (read_byte_register SimBus.xfer 0xC2)
         (exec (read_byte_register SimBus.xfer (u8 (0xC2 + 1)))
               SimBus.energy_0164) = Some lo /\
    eval (read_word_register SimBus.xfer 0xC2) SimBus.energy_0164
      = Some (Z.lor lo (Z.shiftl hi 8)) /\
    exec (read_word_register SimBus.xfer 0xC2) SimBus.energy_0164
      = exec (read_byte_register SimBus.xfer 0xC2)
             (exec (read_byte_register SimBus.xfer (u8 (0xC2 + 1)))
                   SimBus.energy_0164) /\
    Z.lor lo (Z.shiftl hi 8) = lo + 256 * hi /\
    u8 (0xC2 + 1) = (if 0xC2 =? 255 then 0 else 0xC2 + 1).
Proof.
  split; [lia |].
  apply (read_word_register_composition _ SimBus.xfer 0xC2 SimBus.energy_0164).
  lia.
Defined.

Lemma capacity_level_thresholds_witness :
  eval (read_byte_register SimBus.xfer (BATTERY_REGISTER_ENERGY + 1))
       SimBus.energy_0064 = Some 0x00 /\
  eval (read_byte_register SimBus.xfer BATTERY_REGISTER_ENERGY)
       (exec (read_byte_register SimBus.xfer (BATTERY_REGISTER_ENERGY + 1))
             SimBus.energy_0064) = Some 0x64 /\
  eval (battery_energy SimBus.xfer) SimBus.energy_0064 = Some 1000 /\
  eval (battery_capacity SimBus.xfer) SimBus.energy_0064 = Some 2 /\
  eval (battery_capaity_level SimBus.xfer) SimBus.energy_0064
    = Some POWER_SUPPLY_CAPACITY_LEVEL_CRITICAL.
Proof.
  split; [reflexivity |]. split; [reflexivity |].
  apply (proj2 (capacity_level_thresholds _ SimBus.xfer SimBus.energy_0064));
    reflexivity.
Defined.

Lemma battery_rate_sign_magnitude_witness :
  eval (read_word_register SimBus.xfer BATTERY_REGISTER_RATE) SimBus.rate_8000
    = Some 0x8000 /\
  eval (battery_voltage SimBus.xfer)
       (exec (read_word_register SimBus.xfer BATTERY_REGISTER_RATE)
             SimBus.rate_8000) = Some 7400 /\
  eval (battery_rate SimBus.xfer) SimBus.rate_8000 = Some (0x8000 * 7400).
Proof.
  split; [reflexivity |]. split; [reflexivity |].
  apply (battery_rate_sign_magnitude _ SimBus.xfer SimBus.rate_8000 0x8000 7400);
    reflexivity.
Defined.

Lemma battery_current_is_rate_over_voltage_witness :
  eval (battery_voltage SimBus.xfer) SimBus.rate_ff9c = Some 7400 /\
  eval (read_word_register SimBus.xfer BATTERY_REGISTER_RATE)
       (exec (battery_voltage SimBus.xfer) SimBus.rate_ff9c) = Some 0xFF9C /\
  eval (battery_voltage SimBus.xfer)
       (exec (read_word_register SimBus.xfer BATTERY_REGISTER_RATE)
             (exec (battery_voltage SimBus.xfer) SimBus.rate_ff9c))
    = Some 7400 /\
  eval (battery_rate SimBus.xfer)
       (exec (battery_voltage SimBus.xfer) SimBus.rate_ff9c) = Some 740000 /\
  eval (battery_current SimBus.xfer) SimBus.rate_ff9c = Some 100.
Proof.
  split; [reflexivity |]. split; [reflexivity |]. split; [reflexivity |].
  apply (proj2 (battery_current_is_rate_over_voltage
                  _ SimBus.xfer SimBus.rate_ff9c)); reflexivity.
Defined.

Lemma silent_bus_answers_witness :
  every_transfer_fails DeadBus.xfer /\
  eval (battery_get_property DeadBus.xfer POWER_SUPPLY_PROP_STATUS (intval 7))
       DeadBus.w0 = Some (0, intval POWER_SUPPLY_STATUS_FULL) /\
  eval (battery_get_property DeadBus.xfer POWER_SUPPLY_PROP_CAPACITY (intval 7))
       DeadBus.w0 = Some (0, intval 0).
Proof.
  assert (S : every_transfer_fails DeadBus.xfer)
    by (intros m b; unfold failed; simpl; lia).
  split; [exact S |].
  destruct (silent_bus_answers unit DeadBus.xfer (intval 7) DeadBus.w0 S)
    as (Hs & Hc & _).
  split; [exact Hs | exact Hc].
Defined.

(** C1, as stated, fails: on a bus where every transfer fails the STATUS
    register reads 0x00, which the status decoding takes for "full", not
    for "unknown"; and the energy-full and present queries, which read
    nothing, do not answer 0. *)
Lemma silent_bus_status_is_full :
  every_transfer_fails DeadBus.xfer /\
  eval (battery_get_property DeadBus.xfer POWER_SUPPLY_PROP_STATUS (intval 0))
       DeadBus.w0 = Some (0, intval POWER_SUPPLY_STATUS_FULL) /\
  POWER_SUPPLY_STATUS_FULL <> POWER_SUPPLY_STATUS_UNKNOWN /\
  eval (battery_get_property DeadBus.xfer POWER_SUPPLY_PROP_ENERGY_FULL
                             (intval 0))
       DeadBus.w0 = Some (0, intval 37500000) /\
  eval (battery_get_property DeadBus.xfer POWER_SUPPLY_PROP_PRESENT (intval 0))
       DeadBus.w0 = Some (0, intval 1).
Proof.
  split; [intros m b; unfold failed; simpl; lia |].
  split; [reflexivity |]. split; [discriminate |].
  split; reflexivity.
Qed.

(** C7, as stated, fails: the write phase for register 0xC1 puts five
    bytes on the wire, not the three bytes 0x02, 0x80, 0xC1. *)
Lemma write_phase_is_not_three_bytes :
  write_phase_sent (read_byte_register SimBus.xfer 0xC1) (SimBus.boot [] [])
    = [[0x02; 0x80; 0xC1; 0x00; 0x00]] /\
  write_phase_sent (read_byte_register SimBus.xfer 0xC1) (SimBus.boot [] [])
    <> [[0x02; 0x80; 0xC1]].
Proof. split; [reflexivity | discriminate]. Qed.

(** C2.  With the energy above the full energy and a rate that is not 0,
    the negative shortfall is not reset to 0: with 37510 mWh in the
    battery and a rate of 740000 mW the time to full comes out as
    42346007, where the formula with the shortfall held at 0 gives 0. *)
Theorem time_to_full_shortfall_not_clamped :
  eval (battery_rate SimBus.xfer) SimBus.above_full = Some 740000 /\
  eval (battery_energy SimBus.xfer)
       (exec (battery_rate SimBus.xfer) SimBus.above_full) = Some 37510 /\
  Z.max (37500 - 37510) 0 * 3600000 / 740000 = 0 /\
  eval (battery_time_to_full SimBus.xfer) SimBus.above_full = Some 42346007 /\
  eval (battery_get_property SimBus.xfer POWER_SUPPLY_PROP_TIME_TO_FULL_NOW
                             (intval 0)) SimBus.above_full
    = Some (0, intval 42346007).
Proof. repeat split; vm_compute; reflexivity. Qed.

(** * Further results *)

(** ** The bus discipline of the queries *)

Lemma failure_lines_count line msg tries (rs : list xfer_result) :
  Forall failed (removelast rs) ->
  length (failure_lines line tries rs)
    = length (filter failedb (map (pair msg) rs)).
Proof.
  revert tries. induction rs as [| r rs IH]; intros tries F; [reflexivity |].
  simpl. unfold failedb at 1. simpl.
  destruct (Z.eqb_spec (xr_ret r) 1) as [E | N]; simpl.
  - destruct rs as [| r' rs]; [reflexivity |].
    change (Forall failed (r :: removelast (r' :: rs))) in F.
    inversion F as [| ? ? Fr _]. contradiction.
  - f_equal. apply IH.
    destruct rs as [| r' rs]; [constructor |].
    change (Forall failed (r :: removelast (r' :: rs))) in F.
    inversion F. assumption.
Qed.

Lemma reads_among_write_msgs regs reg (rs : list xfer_result) :
  In reg regs -> Forall (reads_among regs) (map (pair (write_msg reg)) rs).
Proof.
  intros Hin. induction rs as [| r rs IH]; simpl; constructor; [| exact IH].
  right. exists reg. split; [exact Hin | reflexivity].
Qed.

Lemma reads_among_read_msgs regs (rs : list xfer_result) :
  Forall (reads_among regs) (map (pair read_msg) rs).
Proof.
  induction rs as [| r rs IH]; simpl; constructor; [| exact IH].
  left. reflexivity.
Qed.

Lemma reads_among_incl regs regs' e :
  incl regs regs' -> reads_among regs e -> reads_among regs' e.
Proof.
  intros Hi [H | (r & Hr & H)]; [left; exact H |].
  right. exists r. split; [apply Hi; exact Hr | exact H].
Qed.

Section Footprints.

Variable Bus : Type.
Variable xfer : i2c_msg -> Bus -> xfer_result * Bus.

Lemma footprint_weaken {A} regs regs' n n' (c : M Bus A) :
  incl regs regs' -> (n <= n')%nat ->
  footprint regs n c -> footprint regs' n' c.
Proof.
  intros Hi Hn F w v w' E.
  destruct (F w v w' E) as (evs & logs & W & D & L & R & C).
  exists evs, logs. repeat (split; [assumption || lia |]).
  split; [| exact C].
  eapply Forall_impl; [| exact R].
  intros e. apply reads_among_incl. exact Hi.
Qed.

Lemma footprint_mret {A} regs n (a : A) : footprint regs n (@mret Bus A a).
Proof.
  intros w v w' E. inversion E; subst.
  exists [], []. rewrite !app_nil_r.
  repeat split; [simpl; lia | constructor].
Qed.

Lemma footprint_udiv regs n a b : footprint regs n (@udiv Bus a b).
Proof.
  unfold udiv. destruct (b =? 0); [intros w v w' E; discriminate |].
  apply footprint_mret.
Qed.

Lemma footprint_mbind {A B} regs n m (c : M Bus A) (k : A -> M Bus B) :
  footprint regs n c ->
  (forall a, footprint regs m (k a)) ->
  footprint regs (n + m) (mbind c k).
Proof.
  intros Fc Fk w v w' E. unfold mbind in E.
  destruct (c w) as [[a w1] |] eqn:Ec; [| discriminate].
  destruct (Fc w a w1 Ec) as (evs1 & logs1 & W1 & D1 & L1 & R1 & C1).
  destruct (Fk a w1 v w' E) as (evs2 & logs2 & W2 & D2 & L2 & R2 & C2).
  exists (evs1 ++ evs2), (logs1 ++ logs2).
  split; [rewrite W2, W1, app_assoc; reflexivity |].
  split; [rewrite D2, D1, app_assoc; reflexivity |].
  split; [rewrite length_app; lia |].
  split; [apply Forall_app; split; assumption |].
  rewrite filter_app, !length_app. lia.
Qed.

Lemma footprint_if {A} regs n (b : bool) (c1 c2 : M Bus A) :
  footprint regs n c1 -> footprint regs n c2 ->
  footprint regs n (if b then c1 else c2).
Proof. destruct b; auto. Qed.

(** One byte read: at most five transfers for each of its two phases. *)
Lemma read_byte_register_footprint reg :
  footprint [reg] 10 (read_byte_register xfer reg).
Proof.
  intros w v w' H. unfold read_byte_register in H.
  destruct (transfer_loop_attempts Bus xfer (WriteFailed reg) (write_msg reg) w)
    as (wr & w1 & E1 & W1 & D1 & A1 & _).
  rewrite (mbind_run _ _ _ _ _ E1) in H.
  destruct A1 as ((_ & L1) & F1). change (Z.to_nat max_tries) with 5%nat in L1.
  assert (Rw : Forall (reads_among [reg]) (map (pair (write_msg reg)) wr))
    by (apply reads_among_write_msgs; simpl; tauto).
  pose proof (failure_lines_count (WriteFailed reg) (write_msg reg) 0 wr F1)
    as C1.
  destruct (xr_ret (last wr no_result) =? 1); cbv [negb] in H.
  - destruct (transfer_loop_attempts Bus xfer (ReadFailed reg) read_msg w1)
      as (rd & w2 & E2 & W2 & D2 & A2 & _).
    rewrite (mbind_run _ _ _ _ _ E2) in H.
    destruct A2 as ((_ & L2) & F2).
    change (Z.to_nat max_tries) with 5%nat in L2.
    pose proof (failure_lines_count (ReadFailed reg) read_msg 0 rd F2) as C2.
    assert (w' = w2)
      by (destruct (xr_ret (last rd no_result) =? 1); cbv [negb] in H;
          inversion H; reflexivity).
    subst w'.
    exists (map (pair (write_msg reg)) wr ++ map (pair read_msg) rd),
           (failure_lines (WriteFailed reg) 0 wr
              ++ failure_lines (ReadFailed reg) 0 rd).
    split; [rewrite W2, W1, <- app_assoc; reflexivity |].
    split; [rewrite D2, D1, <- app_assoc; reflexivity |].
    split; [rewrite length_app, !length_map; lia |].
    split; [apply Forall_app; split;
            [exact Rw | apply reads_among_read_msgs] |].
    rewrite filter_app, !length_app. lia.
  - inversion H; subst.
    exists (map (pair (write_msg reg)) wr), (failure_lines (WriteFailed reg) 0 wr).
    split; [exact W1 |]. split; [exact D1 |].
    split; [rewrite length_map; lia |].
    split; [exact Rw | exact C1].
Qed.

Lemma read_word_register_footprint reg :
  footprint [u8 (reg + 1); reg] 20 (read_word_register xfer reg).
Proof.
  unfold read_word_register.
  apply (footprint_mbind _ 10 10).
  - eapply footprint_weaken; [| | apply read_byte_register_footprint];
      [intros r [<- | []]; simpl; tauto | lia].
  - intros hi. apply (footprint_mbind _ 10 0).
    + eapply footprint_weaken; [| | apply read_byte_register_footprint];
        [intros r [<- | []]; simpl; tauto | lia].
    + intros lo. apply footprint_mret.
Qed.

Lemma read_word_footprint_battery reg n :
  In reg battery_registers -> In (u8 (reg + 1)) battery_registers ->
  (20 <= n)%nat ->
  footprint battery_registers n (read_word_register xfer reg).
Proof.
  intros H1 H2 Hn.
  eapply footprint_weaken; [| exact Hn | apply read_word_register_footprint].
  intros r [<- | [<- | []]]; assumption.
Qed.

Lemma battery_energy_footprint :
  footprint battery_registers 20 (battery_energy xfer).
Proof.
  unfold battery_energy. apply (footprint_mbind _ 20 0).
  - apply read_word_footprint_battery; [simpl; tauto | simpl; tauto | lia].
  - intros e. apply footprint_mret.
Qed.

Lemma battery_voltage_footprint :
  footprint battery_registers 20 (battery_voltage xfer).
Proof.
  unfold battery_voltage. apply (footprint_mbind _ 20 0).
  - apply read_word_footprint_battery; [simpl; tauto | simpl; tauto | lia].
  - intros e. apply footprint_mret.
Qed.

Lemma battery_rate_footprint :
  footprint battery_registers 40 (battery_rate xfer).
Proof.
  unfold battery_rate. apply (footprint_mbind _ 20 20).
  - apply read_word_footprint_battery; [simpl; tauto | simpl; tauto | lia].
  - intros r. apply (footprint_mbind _ 20 0).
    + apply battery_voltage_footprint.
    + intros v. apply footprint_mret.
Qed.

Lemma battery_status_footprint :
  footprint battery_registers 10 (battery_status xfer).
Proof.
  unfold battery_status. apply (footprint_mbind _ 10 0).
  - eapply footprint_weaken; [| | apply read_byte_register_footprint];
      [intros r [<- | []]; simpl; tauto | lia].
  - intros st. repeat apply footprint_if; apply footprint_mret.
Qed.

Lemma battery_capacity_footprint :
  footprint battery_registers 20 (battery_capacity xfer).
Proof.
  unfold battery_capacity, battery_energy_full.
  apply (footprint_mbind _ 0 20); [apply footprint_mret |].
  intros f. apply footprint_if; [apply footprint_mret |].
  apply (footprint_mbind _ 20 0); [apply battery_energy_footprint |].
  intros e. apply (footprint_mbind _ 0 0); [apply footprint_mret |].
  intros f'. apply footprint_udiv.
Qed.

Lemma battery_capaity_level_footprint :
  footprint battery_registers 20 (battery_capaity_level xfer).
Proof.
  unfold battery_capaity_level.
  apply (footprint_mbind _ 20 0); [apply battery_capacity_footprint |].
  intros c. repeat apply footprint_if; apply footprint_mret.
Qed.

Lemma battery_time_to_empty_footprint :
  footprint battery_registers 60 (battery_time_to_empty xfer).
Proof.
  unfold battery_time_to_empty.
  apply (footprint_mbind _ 40 20); [apply battery_rate_footprint |].
  intros r. apply footprint_if; [apply footprint_mret |].
  apply (footprint_mbind _ 20 0); [apply battery_energy_footprint |].
  intros e. apply (footprint_mbind _ 0 0); [apply footprint_udiv |].
  intros q. apply footprint_mret.
Qed.

Lemma battery_time_to_full_footprint :
  footprint battery_registers 60 (battery_time_to_full xfer).
Proof.
  unfold battery_time_to_full, battery_energy_full.
  apply (footprint_mbind _ 40 20); [apply battery_rate_footprint |].
  intros r. apply footprint_if; [apply footprint_mret |].
  apply (footprint_mbind _ 0 20); [apply footprint_mret |].
  intros f. apply (footprint_mbind _ 20 0); [apply battery_energy_footprint |].
  intros e. apply (footprint_mbind _ 0 0); [apply footprint_udiv |].
  intros q. apply footprint_mret.
Qed.

Lemma battery_current_footprint :
  footprint battery_registers 60 (battery_current xfer).
Proof.
  unfold battery_current.
  apply (footprint_mbind _ 20 40); [apply battery_voltage_footprint |].
  intros v. apply footprint_if; [apply footprint_mret |].
  apply (footprint_mbind _ 40 0); [apply battery_rate_footprint |].
  intros r. apply footprint_udiv.
Qed.

(** A query for a known identifier keeps to the discipline, within its
    budget. *)
Lemma battery_get_property_footprint p val :
  In p known_properties ->
  footprint battery_registers (transfer_budget p)
            (battery_get_property xfer p val).
Proof.
  intros Hin.
  destruct p; simpl in Hin;
    try (exfalso; repeat (destruct Hin as [Hin | Hin]; [discriminate |]);
         exact Hin);
    unfold battery_get_property, transfer_budget;
    try apply footprint_mret.
  - apply (footprint_mbind _ 10 0);
      [apply battery_status_footprint | intros v; apply footprint_mret].
  - apply (footprint_mbind _ 20 0);
      [apply battery_capacity_footprint | intros v; apply footprint_mret].
  - apply (footprint_mbind _ 60 0);
      [apply battery_time_to_empty_footprint | intros v; apply footprint_mret].
  - apply (footprint_mbind _ 60 0);
      [apply battery_time_to_full_footprint | intros v; apply footprint_mret].
  - apply (footprint_mbind _ 20 0);
      [apply battery_voltage_footprint | intros v; apply footprint_mret].
  - apply (footprint_mbind _ 60 0);
      [apply battery_current_footprint | intros v; apply footprint_mret].
  - apply (footprint_mbind _ 20 0);
      [apply battery_energy_footprint | intros v; apply footprint_mret].
  - apply (footprint_mbind _ 20 0);
      [apply battery_capaity_level_footprint | intros v; apply footprint_mret].
Qed.

(** The footprint of a run, read off its record. *)
Lemma footprint_of_run {A} regs n (c : M Bus A) w v w' :
  footprint regs n c -> c w = Some (v, w') ->
  (length (issued c w) <= n)%nat /\
  Forall (reads_among regs) (issued c w) /\
  length (logged c w) = length (filter failedb (issued c w)).
Proof.
  intros F E.
  destruct (F w v w' E) as (evs & logs & W & D & L & R & C).
  unfold issued, logged. rewrite (run_exec _ _ _ _ E), W, D.
  rewrite !skipn_length_app. repeat split; assumption.
Qed.

End Footprints.

Lemma some_pair_inj {A B} (a a' : A) (b b' : B) :
  Some (a, b) = Some (a', b') -> a = a' /\ b = b'.
Proof. intros H. inversion H. split; reflexivity. Qed.

Section FurtherResults.

Variable Bus : Type.
Variable xfer : i2c_msg -> Bus -> xfer_result * Bus.

(** X1.  Whatever is asked and whatever the bus does, the module only
    ever reads the battery: every transfer of a query is the one-byte
    read message or the message that selects one of the seven registers
    STATUS, RATE, RATE+1, ENERGY, ENERGY+1, VOLTAGE, VOLTAGE+1. *)
Theorem queries_only_read_battery_registers p val (w : World Bus) :
  Forall (reads_among battery_registers)
         (issued (battery_get_property xfer p val) w).
Proof.
  destruct (known_properties_dec p) as [Hin | Hn].
  - destruct (battery_get_property_known Bus xfer p w Hin) as (val' & w' & E).
    exact (proj1 (proj2 (footprint_of_run Bus _ _ _ _ _ _
             (battery_get_property_footprint Bus xfer p val Hin) (E val)))).
  - unfold issued.
    rewrite (run_exec _ _ _ _ (battery_get_property_unknown Bus xfer p val w Hn)).
    simpl. rewrite skipn_all. constructor.
Qed.

(** X2.  A query takes a bounded number of bus transfers: at most ten
    for each byte it reads, so at most 10 for the status, 20 for
    capacity, voltage, energy-now and capacity level, 60 for the two
    times and the current, and none at all for the constant answers and
    for an unknown identifier. *)
Theorem queries_stay_within_transfer_budget p val (w : World Bus) :
  (length (issued (battery_get_property xfer p val) w) <= transfer_budget p)%nat
  /\ (transfer_budget p <= 60)%nat.
Proof.
  split; [| destruct p; simpl; lia].
  destruct (known_properties_dec p) as [Hin | Hn].
  - destruct (battery_get_property_known Bus xfer p w Hin) as (val' & w' & E).
    exact (proj1 (footprint_of_run Bus _ _ _ _ _ _
             (battery_get_property_footprint Bus xfer p val Hin) (E val))).
  - unfold issued.
    rewrite (run_exec _ _ _ _ (battery_get_property_unknown Bus xfer p val w Hn)).
    simpl. rewrite skipn_all. simpl. lia.
Qed.

(** X3.  The kernel log tells every failure: a query for a known
    identifier logs exactly one line for each transfer that failed, and
    nothing else; a query for an unknown identifier logs the one line
    about the unknown report and issues no transfer. *)
Theorem queries_log_each_failed_transfer p val (w : World Bus) :
  (In p known_properties /\
   length (logged (battery_get_property xfer p val) w)
     = length (filter failedb (issued (battery_get_property xfer p val) w)))
  \/
  (~ In p known_properties /\
   logged (battery_get_property xfer p val) w = [UnknownReport] /\
   issued (battery_get_property xfer p val) w = []).
Proof.
  destruct (known_properties_dec p) as [Hin | Hn].
  - left. split; [exact Hin |].
    destruct (battery_get_property_known Bus xfer p w Hin) as (val' & w' & E).
    exact (proj2 (proj2 (footprint_of_run Bus _ _ _ _ _ _
             (battery_get_property_footprint Bus xfer p val Hin) (E val)))).
  - right. split; [exact Hn |].
    unfold logged, issued.
    rewrite (run_exec _ _ _ _ (battery_get_property_unknown Bus xfer p val w Hn)).
    simpl. rewrite skipn_all, skipn_length_app. split; reflexivity.
Qed.

(** X4.  Every identifier the module advertises to the kernel in
    [battery_properties] is answered with success, on every bus. *)
Theorem advertised_properties_are_answered p val (w : World Bus) :
  In p battery_properties ->
  exists val', eval (battery_get_property xfer p val) w = Some (0, val').
Proof.
  intros Hin. apply advertised_are_known in Hin.
  destruct (battery_get_property_known Bus xfer p w Hin) as (val' & w' & E).
  exists val'. exact (run_eval _ _ _ _ (E val)).
Qed.

(** X5.  The energy is ten times the word of the ENERGY register, at
    most 655350 mWh, and the energy-now answer is that energy in uWh,
    10000 times the word, without any wrap-around. *)
Theorem energy_now_scales_register_word val (w : World Bus) :
  exists word,
    eval (read_word_register xfer BATTERY_REGISTER_ENERGY) w = Some word /\
    0 <= word <= 0xFFFF /\
    eval (battery_energy xfer) w = Some (10 * word) /\
    eval (battery_get_property xfer POWER_SUPPLY_PROP_ENERGY_NOW val) w
      = Some (0, intval (10000 * word)).
Proof.
  destruct (battery_energy_run Bus xfer w) as (word & w' & Ew & R & E).
  exists word. split; [exact (run_eval _ _ _ _ Ew) |]. split; [lia |].
  split; [rewrite (run_eval _ _ _ _ E); f_equal; lia |].
  unfold eval, battery_get_property. step E. unfold mret.
  rewrite u32_small by lia. rewrite s32_small by lia.
  do 3 f_equal. lia.
Qed.

(** X6.  The time to empty is 0 when the rate is 0, and the energy is
    then not even read; otherwise it is energy * 3600000 / rate, computed
    without overflow in 64 bits and then cut to 32 bits. *)
Theorem battery_time_to_empty_formula (w : World Bus) :
  exists rate,
    eval (battery_rate xfer) w = Some rate /\
    ((rate = 0 /\
      battery_time_to_empty xfer w = Some (0, exec (battery_rate xfer) w)) \/
     (rate <> 0 /\
      exists e,
        eval (battery_energy xfer) (exec (battery_rate xfer) w) = Some e /\
        eval (battery_time_to_empty xfer) w
          = Some ((e * 3600000 / rate) mod 2 ^ 32))).
Proof.
  destruct (battery_time_to_empty_run Bus xfer w)
    as (rate & w1 & E1 & [(Hz & E) | (Hnz & e & w2 & E2 & E)]);
    exists rate; rewrite (run_eval _ _ _ _ E1), (run_exec _ _ _ _ E1);
    (split; [reflexivity |]).
  - left. split; [exact Hz | exact E].
  - right. split; [exact Hnz |]. exists e.
    split; [exact (run_eval _ _ _ _ E2) | exact (run_eval _ _ _ _ E)].
Qed.

(** X7.  While the energy is not above the full energy of 37500 mWh and
    the rate is not 0, the time to full is
    (37500 - energy) * 3600000 / rate, cut to 32 bits. *)
Theorem battery_time_to_full_below_full (w : World Bus) rate e :
  eval (battery_rate xfer) w = Some rate ->
  eval (battery_energy xfer) (exec (battery_rate xfer) w) = Some e ->
  rate <> 0 ->
  e <= 37500 ->
  eval (battery_time_to_full xfer) w
    = Some (((37500 - e) * 3600000 / rate) mod 2 ^ 32).
Proof.
  intros H1 H2 Hnz Hle.
  destruct (battery_time_to_full_run Bus xfer w)
    as (rate' & w1 & E1 & [(Hz & _) | (_ & e' & w2 & E2 & E)]);
    rewrite (run_eval _ _ _ _ E1) in H1; inversion H1; subst;
    [congruence |].
  rewrite (run_exec _ _ _ _ E1), (run_eval _ _ _ _ E2) in H2.
  inversion H2; subst e'.
  destruct (battery_energy_run Bus xfer w1) as (word & w3 & _ & R & E3).
  rewrite E3 in E2. apply some_pair_inj in E2. destruct E2 as [He _].
  subst e.
  rewrite (run_eval _ _ _ _ E). rewrite u64_small by lia. reflexivity.
Qed.

(** X8.  The answers for capacity, voltage and current are never
    negative and are bounded: the capacity by 1747 (it is not capped at
    100), the voltage by 65535, the current by 0x8000 * 0xFFFF. *)
Theorem measured_answers_are_bounded val (w : World Bus) :
  (exists c,
     eval (battery_get_property xfer POWER_SUPPLY_PROP_CAPACITY val) w
       = Some (0, intval c) /\ 0 <= c <= 1747) /\
  (exists v,
     eval (battery_get_property xfer POWER_SUPPLY_PROP_VOLTAGE_NOW val) w
       = Some (0, intval v) /\ 0 <= v <= 65535) /\
  (exists i,
     eval (battery_get_property xfer POWER_SUPPLY_PROP_CURRENT_NOW val) w
       = Some (0, intval i) /\ 0 <= i <= 0x8000 * 0xFFFF).
Proof.
  split; [| split].
  - destruct (battery_capaity_level_run Bus xfer w) as (c & w' & E & R & _).
    exists c. split; [| exact R].
    unfold eval, battery_get_property. step E. unfold mret.
    rewrite s32_small by lia. reflexivity.
  - destruct (battery_voltage_run Bus xfer w) as (v & w' & _ & R & E).
    exists v. split; [| lia].
    unfold eval, battery_get_property. step E. unfold mret.
    rewrite s32_small by lia. reflexivity.
  - destruct (battery_current_run Bus xfer w)
      as (v & w1 & E1 & [(Hz & E) | (Hnz & r & w2 & E2 & E)]).
    + exists 0. split; [| lia].
      unfold eval, battery_get_property. step E. reflexivity.
    + destruct (battery_voltage_run Bus xfer w) as (v' & w1' & _ & Rv & E1').
      rewrite E1' in E1. apply some_pair_inj in E1. destruct E1 as [Hv Hw].
      subst v' w1'.
      destruct (battery_rate_run Bus xfer w1)
        as (raw & v2 & w3 & w4 & _ & _ & Rr & Rv2 & E2').
      rewrite E2' in E2. apply some_pair_inj in E2. destruct E2 as [Hr Hw].
      subst r w4.
      set (m := if raw >? 0x7FFF then 0x10000 - raw else raw) in *.
      assert (Hm : 0 <= m <= 0x8000)
        by (unfold m; destruct (Z.gtb_spec raw 0x7FFF); lia).
      assert (Hq : 0 <= m * v2 / v <= 0x8000 * 0xFFFF).
      { split; [apply Z.div_pos; nia |].
        apply Z.div_le_upper_bound; nia. }
      exists (m * v2 / v). split; [| exact Hq].
      unfold eval, battery_get_property. step E. unfold mret.
      rewrite s32_small by lia. reflexivity.
Qed.

(** X9.  When the voltage reads the same, and not 0, both times it is
    read, the current is the magnitude of the RATE word itself. *)
Theorem battery_current_is_rate_magnitude (w : World Bus) v raw :
  eval (battery_voltage xfer) w = Some v ->
  eval (read_word_register xfer BATTERY_REGISTER_RATE)
       (exec (battery_voltage xfer) w) = Some raw ->
  eval (battery_voltage xfer)
       (exec (read_word_register xfer BATTERY_REGISTER_RATE)
             (exec (battery_voltage xfer) w)) = Some v ->
  v <> 0 ->
  eval (battery_current xfer) w
    = Some (if raw >? 0x7FFF then 0x10000 - raw else raw).
Proof.
  intros H1 H2 H3 Hnz.
  destruct (battery_current_run Bus xfer w)
    as (v' & w1 & E1 & [(Hz & _) | (_ & r & w2 & E2 & E)]);
    rewrite (run_eval _ _ _ _ E1) in H1; inversion H1; subst;
    [congruence |].
  rewrite (run_exec _ _ _ _ E1) in H2, H3.
  destruct (battery_rate_run Bus xfer w1)
    as (raw' & v2 & w3 & w4 & Er & Ev & _ & _ & E2').
  rewrite (run_eval _ _ _ _ Er) in H2. inversion H2; subst raw'.
  rewrite (run_exec _ _ _ _ Er), (run_eval _ _ _ _ Ev) in H3.
  inversion H3; subst v2.
  rewrite E2' in E2. apply some_pair_inj in E2. destruct E2 as [Hr Hw].
  subst r w4.
  rewrite (run_eval _ _ _ _ E). f_equal. apply Z.div_mul. exact Hnz.
Qed.

(** X10.  The capacity level in terms of the ENERGY register word:
    CRITICAL up to 224, LOW from 225 to 599, FULL from 3750 to 3787
    only, and NORMAL for every other word, also for those above 3787
    (more than 100 %). *)
Theorem capacity_level_by_energy_word (w : World Bus) :
  exists word lvl,
    eval (read_word_register xfer BATTERY_REGISTER_ENERGY) w = Some word /\
    eval (battery_capaity_level xfer) w = Some lvl /\
    ((word <= 224 /\ lvl = POWER_SUPPLY_CAPACITY_LEVEL_CRITICAL) \/
     (225 <= word <= 599 /\ lvl = POWER_SUPPLY_CAPACITY_LEVEL_LOW) \/
     (3750 <= word <= 3787 /\ lvl = POWER_SUPPLY_CAPACITY_LEVEL_FULL) \/
     ((600 <= word <= 3749 \/ 3788 <= word) /\
      lvl = POWER_SUPPLY_CAPACITY_LEVEL_NORMAL)).
Proof.
  destruct (battery_capaity_level_run Bus xfer w) as (c & w1 & Ec & _ & El).
  destruct (battery_capacity_run Bus xfer w) as (e & w2 & Ee & _ & Ec').
  destruct (battery_energy_run Bus xfer w) as (word & w3 & Ew & R & Ee').
  rewrite Ec' in Ec. apply some_pair_inj in Ec. destruct Ec as [Hc Hw].
  subst c w2.
  rewrite Ee' in Ee. apply some_pair_inj in Ee. destruct Ee as [He Hw].
  subst e w3.
  exists word. eexists.
  split; [exact (run_eval _ _ _ _ Ew) |].
  split; [exact (run_eval _ _ _ _ El) |].
  pose proof (Z.div_mod (100 * (word * 10)) 37500 ltac:(lia)) as Hdm.
  pose proof (Z.mod_pos_bound (100 * (word * 10)) 37500 ltac:(lia)) as Hmb.
  set (q := 100 * (word * 10) / 37500) in *.
  destruct (Z.eqb_spec q 100) as [H100 | H100].
  - right; right; left. split; [lia | reflexivity].
  - destruct (Z.leb_spec q 5) as [H5 | H5]; [left; split; [lia | reflexivity] |].
    destruct (Z.leb_spec q 15) as [H15 | H15].
    + right; left. split; [lia | reflexivity].
    + right; right; right. split; [lia | reflexivity].
Qed.

End FurtherResults.

(** ** Transient failures on the simulated controller *)

(** With fewer failures ahead than tries, the loop ends on the transfer
    that goes through. *)
Lemma sim_transfer_loop_recovers line msg fw :
  forall n tries r0 (w : World SimBus.sim) rest,
    Forall (fun r => r <> 1) fw ->
    (length fw < n)%nat ->
    SimBus.script (bus w) = fw ++ 1 :: rest ->
    exists w',
      transfer_loop SimBus.xfer line msg n tries r0 w
        = Some (fst (SimBus.perform msg (bus w) rest), w') /\
      bus w' = snd (SimBus.perform msg (bus w) rest).
Proof.
  induction fw as [| f fw IH]; intros n tries r0 w rest Hf Hn Hs;
    (destruct n as [| n]; [simpl in Hn; lia |]).
  - simpl. unfold mbind at 1. unfold i2c_transfer at 1.
    unfold SimBus.xfer. rewrite Hs. simpl.
    assert (R : xr_ret (fst (SimBus.perform msg (bus w) rest)) = 1)
      by (unfold SimBus.perform;
          destruct (negb (Z.land (msg_flags msg) I2C_M_RD =? 0)); reflexivity).
    destruct (SimBus.perform msg (bus w) rest) as [r b] eqn:P.
    simpl in R. rewrite R. simpl. eexists. split; reflexivity.
  - inversion Hf as [| ? ? Hf1 Hf2]; subst.
    simpl. unfold mbind at 1. unfold i2c_transfer at 1.
    unfold SimBus.xfer at 1. rewrite Hs. simpl.
    destruct (Z.eqb_spec f 1) as [? | _]; [contradiction |].
    simpl. destruct (Z.eqb_spec f 1) as [? | _]; [contradiction |].
    unfold mbind at 1. unfold printk at 1.
    match goal with
    | |- context [transfer_loop _ _ _ n ?t ?r ?w1] =>
        destruct (IH n t r w1 rest Hf2 ltac:(simpl in Hn; lia) eq_refl)
          as (w' & E & B)
    end.
    exists w'. split; [exact E | exact B].
Qed.

(** X11.  A byte read rides out transient failures: when at most four
    transfers in a row fail before the write phase goes through, and at
    most four before the read phase does, the read returns the byte the
    register holds, as if nothing had failed. *)
Theorem transient_failures_are_masked reg rs fw fr rest :
  Forall (fun r => r <> 1) fw ->
  Forall (fun r => r <> 1) fr ->
  (length fw <= 4)%nat ->
  (length fr <= 4)%nat ->
  eval (read_byte_register SimBus.xfer reg)
       (SimBus.boot rs (fw ++ 1 :: fr ++ 1 :: rest))
    = Some (u8 (SimBus.lookup reg rs)).
Proof.
  intros Hfw Hfr Lw Lr.
  set (w := SimBus.boot rs (fw ++ 1 :: fr ++ 1 :: rest)).
  destruct (sim_transfer_loop_recovers (WriteFailed reg) (write_msg reg) fw
              5%nat 0 no_result w (fr ++ 1 :: rest) Hfw ltac:(lia) eq_refl)
    as (w1 & E1 & B1).
  assert (S1 : SimBus.script (bus w1) = fr ++ 1 :: rest)
    by (rewrite B1; reflexivity).
  destruct (sim_transfer_loop_recovers (ReadFailed reg) read_msg fr
              5%nat 0 no_result w1 rest Hfr ltac:(lia) S1)
    as (w2 & E2 & _).
  change (fst (SimBus.perform (write_msg reg) (bus w) (fr ++ 1 :: rest)))
    with {| xr_ret := 1; xr_buf := msg_buf (write_msg reg) |} in E1.
  change (snd (SimBus.perform (write_msg reg) (bus w) (fr ++ 1 :: rest)))
    with {| SimBus.regs := rs; SimBus.selected := reg;
            SimBus.script := fr ++ 1 :: rest |} in B1.
  rewrite B1 in E2.
  change (fst (SimBus.perform read_msg
                 {| SimBus.regs := rs; SimBus.selected := reg;
                    SimBus.script := fr ++ 1 :: rest |} rest))
    with {| xr_ret := 1; xr_buf := [u8 (SimBus.lookup reg rs)] |} in E2.
  unfold eval, read_byte_register.
  change (Z.to_nat max_tries) with 5%nat.
  step E1. cbn [xr_ret]. change (negb (1 =? 1)) with false. cbv iota.
  step E2.
  change (Some (u8 (u8 (SimBus.lookup reg rs)))
          = Some (u8 (SimBus.lookup reg rs))).
  unfold u8. rewrite Z.mod_mod by (cbv; discriminate). reflexivity.
Qed.

(** ** Loading and unloading *)

Lemma give_back_head r held :
  Lifecycle.give_back r (r :: held) = held.
Proof.
  simpl. replace (Lifecycle.resource_eqb r r) with true; [reflexivity |].
  destruct r; simpl; symmetry; apply Z.eqb_refl.
Qed.

(** X12.  When the battery device was created but the power supply
    could not be registered, loading fails with [-EINVAL] and gives back
    everything it took: the device is unregistered and the adapter put
    back, so nothing stays held. *)
Theorem init_register_failure_releases_everything k g :
  Lifecycle.client k <> Lifecycle.NULL ->
  Lifecycle.supply k = Lifecycle.NULL ->
  fst (fst (Lifecycle.battery_module_init k g)) = - EINVAL /\
  Lifecycle.held_after (snd (Lifecycle.battery_module_init k g)) = [].
Proof.
  intros Hc Hs. unfold Lifecycle.battery_module_init.
  destruct (Z.eqb_spec (Lifecycle.client k) Lifecycle.NULL) as [? | _];
    [contradiction |].
  rewrite Hs. change (Lifecycle.NULL =? Lifecycle.NULL) with true. cbv iota.
  split; [reflexivity |].
  unfold Lifecycle.held_after.
  cbn [snd fold_left Lifecycle.after_call]. unfold Lifecycle.hand_out.
  change (Lifecycle.NULL =? Lifecycle.NULL) with true. cbv iota.
  destruct (Z.eqb_spec (Lifecycle.client k) Lifecycle.NULL) as [? | _];
    [contradiction |].
  destruct (Lifecycle.adapter k =? Lifecycle.NULL);
    rewrite !give_back_head; reflexivity.
Qed.

(** X13.  After a load that succeeded, unloading gives back everything
    the load took, the power supply first and the adapter last: nothing
    stays held. *)
Theorem load_then_unload_releases_everything k g :
  fst (fst (Lifecycle.battery_module_init k g)) = 0 ->
  Lifecycle.client k <> Lifecycle.NULL /\
  Lifecycle.supply k <> Lifecycle.NULL /\
  Lifecycle.held_after
    (snd (Lifecycle.battery_module_init k g)
       ++ Lifecycle.battery_module_exit
            (snd (fst (Lifecycle.battery_module_init k g)))) = [].
Proof.
  unfold Lifecycle.battery_module_init.
  destruct (Z.eqb_spec (Lifecycle.client k) Lifecycle.NULL) as [Hc | Hc];
    [simpl; discriminate |].
  destruct (Z.eqb_spec (Lifecycle.supply k) Lifecycle.NULL) as [Hs | Hs];
    [simpl; discriminate |].
  intros _. split; [exact Hc |]. split; [exact Hs |].
  unfold Lifecycle.held_after, Lifecycle.battery_module_exit.
  cbn [snd fst app fold_left Lifecycle.after_call
       Lifecycle.battery Lifecycle.battery_device Lifecycle.battery_bus].
  unfold Lifecycle.hand_out.
  destruct (Z.eqb_spec (Lifecycle.client k) Lifecycle.NULL) as [? | _];
    [contradiction |].
  destruct (Z.eqb_spec (Lifecycle.supply k) Lifecycle.NULL) as [? | _];
    [contradiction |].
  destruct (Lifecycle.adapter k =? Lifecycle.NULL);
    rewrite !give_back_head; reflexivity.
Qed.

(** X14.  When the battery device cannot be created, loading fails with
    [-ENODEV] right away: the power supply is never registered, and the
    adapter that was taken is not put back. *)
Theorem init_without_device_keeps_adapter k g :
  Lifecycle.client k = Lifecycle.NULL ->
  Lifecycle.adapter k <> Lifecycle.NULL ->
  fst (fst (Lifecycle.battery_module_init k g)) = - Lifecycle.ENODEV /\
  snd (Lifecycle.battery_module_init k g)
    = [ Lifecycle.i2c_get_adapter Lifecycle.BATTERY_I2C_BUS
          (Lifecycle.adapter k);
        Lifecycle.i2c_new_device (Lifecycle.adapter k) "acer-switch-battery"
          BATTERY_I2C_ADDRESS Lifecycle.NULL ] /\
  Lifecycle.held_after (snd (Lifecycle.battery_module_init k g))
    = [Lifecycle.Adapter (Lifecycle.adapter k)].
Proof.
  intros Hc Ha. unfold Lifecycle.battery_module_init. rewrite Hc.
  change (Lifecycle.NULL =? Lifecycle.NULL) with true. cbv iota.
  split; [reflexivity |]. split; [reflexivity |].
  unfold Lifecycle.held_after.
  cbn [snd fold_left Lifecycle.after_call]. unfold Lifecycle.hand_out.
  change (Lifecycle.NULL =? Lifecycle.NULL) with true. cbv iota.
  destruct (Z.eqb_spec (Lifecycle.adapter k) Lifecycle.NULL) as [? | _];
    [contradiction | reflexivity].
Qed.

(** ** The further results on concrete inputs *)

Lemma advertised_properties_are_answered_witness :
  In POWER_SUPPLY_PROP_VOLTAGE_NOW battery_properties /\
  exists val',
    eval (battery_get_property SimBus.xfer POWER_SUPPLY_PROP_VOLTAGE_NOW
                               (intval 0)) SimBus.rate_ff9c
      = Some (0, val').
Proof.
  split; [simpl; tauto |].
  apply (advertised_properties_are_answered _ SimBus.xfer
           POWER_SUPPLY_PROP_VOLTAGE_NOW (intval 0) SimBus.rate_ff9c).
  simpl; tauto.
Defined.

Lemma battery_time_to_full_below_full_witness :
  eval (battery_rate SimBus.xfer) SimBus.rate_ff9c = Some 740000 /\
  eval (battery_energy SimBus.xfer)
       (exec (battery_rate SimBus.xfer) SimBus.rate_ff9c) = Some 0 /\
  740000 <> 0 /\
  0 <= 37500 /\
  eval (battery_time_to_full SimBus.xfer) SimBus.rate_ff9c
    = Some (((37500 - 0) * 3600000 / 740000) mod 2 ^ 32).
Proof.
  split; [reflexivity |]. split; [reflexivity |].
  split; [discriminate |]. split; [lia |].
  apply (battery_time_to_full_below_full _ SimBus.xfer SimBus.rate_ff9c
           740000 0); [reflexivity | reflexivity | discriminate | lia].
Defined.

Lemma battery_current_is_rate_magnitude_witness :
  eval (battery_voltage SimBus.xfer) SimBus.rate_ff9c = Some 7400 /\
  eval (read_word_register SimBus.xfer BATTERY_REGISTER_RATE)
       (exec (battery_voltage SimBus.xfer) SimBus.rate_ff9c) = Some 0xFF9C /\
  eval (battery_voltage SimBus.xfer)
       (exec (read_word_register SimBus.xfer BATTERY_REGISTER_RATE)
             (exec (battery_voltage SimBus.xfer) SimBus.rate_ff9c))
    = Some 7400 /\
  7400 <> 0 /\
  eval (battery_current SimBus.xfer) SimBus.rate_ff9c
    = Some (if 0xFF9C >? 0x7FFF then 0x10000 - 0xFF9C else 0xFF9C).
Proof.
  split; [reflexivity |]. split; [reflexivity |]. split; [reflexivity |].
  split; [discriminate |].
  apply (battery_current_is_rate_magnitude _ SimBus.xfer SimBus.rate_ff9c
           7400 0xFF9C); [reflexivity | reflexivity | reflexivity |
                          discriminate].
Defined.

Lemma transient_failures_are_masked_witness :
  Forall (fun r => r <> 1) [-5; -6; 0] /\
  Forall (fun r => r <> 1) [-110; 2; -5; -5] /\
  (length [-5; -6; 0]%Z <= 4)%nat /\
  (length [-110; 2; -5; -5]%Z <= 4)%nat /\
  eval (read_byte_register SimBus.xfer 0xC1)
       (SimBus.boot [(0xC1, 0x02)]
                    ([-5; -6; 0] ++ 1 :: [-110; 2; -5; -5] ++ 1 :: []))
    = Some (u8 (SimBus.lookup 0xC1 [(0xC1, 0x02)])).
Proof.
  assert (Fw : Forall (fun r => r <> 1) [-5; -6; 0])
    by (repeat constructor; discriminate).
  assert (Fr : Forall (fun r => r <> 1) [-110; 2; -5; -5])
    by (repeat constructor; discriminate).
  split; [exact Fw |]. split; [exact Fr |].
  split; [simpl; lia |]. split; [simpl; lia |].
  apply (transient_failures_are_masked 0xC1 [(0xC1, 0x02)]
           [-5; -6; 0] [-110; 2; -5; -5] [] Fw Fr); simpl; lia.
Defined.

Lemma init_register_failure_releases_everything_witness :
  Lifecycle.client (Lifecycle.mk_kernel 100 200 0) <> Lifecycle.NULL /\
  Lifecycle.supply (Lifecycle.mk_kernel 100 200 0) = Lifecycle.NULL /\
  fst (fst (Lifecycle.battery_module_init
              (Lifecycle.mk_kernel 100 200 0)
              (Lifecycle.mk_globals 0 0 0))) = - EINVAL /\
  Lifecycle.held_after
    (snd (Lifecycle.battery_module_init
            (Lifecycle.mk_kernel 100 200 0)
            (Lifecycle.mk_globals 0 0 0))) = [].
Proof.
  split; [discriminate |]. split; [reflexivity |].
  apply (init_register_failure_releases_everything
           (Lifecycle.mk_kernel 100 200 0) (Lifecycle.mk_globals 0 0 0));
    [discriminate | reflexivity].
Defined.

Lemma load_then_unload_releases_everything_witness :
  fst (fst (Lifecycle.battery_module_init
              (Lifecycle.mk_kernel 100 200 300)
              (Lifecycle.mk_globals 0 0 0))) = 0 /\
  Lifecycle.held_after
    (snd (Lifecycle.battery_module_init
            (Lifecycle.mk_kernel 100 200 300)
            (Lifecycle.mk_globals 0 0 0))
       ++ Lifecycle.battery_module_exit
            (snd (fst (Lifecycle.battery_module_init
                         (Lifecycle.mk_kernel 100 200 300)
                         (Lifecycle.mk_globals 0 0 0))))) = [].
Proof.
  split; [reflexivity |].
  apply (load_then_unload_releases_everything
           (Lifecycle.mk_kernel 100 200 300) (Lifecycle.mk_globals 0 0 0)).
  reflexivity.
Defined.

Lemma init_without_device_keeps_adapter_witness :
  Lifecycle.client (Lifecycle.mk_kernel 100 0 0) = Lifecycle.NULL /\
  Lifecycle.adapter (Lifecycle.mk_kernel 100 0 0) <> Lifecycle.NULL /\
  Lifecycle.held_after
    (snd (Lifecycle.battery_module_init
            (Lifecycle.mk_kernel 100 0 0) (Lifecycle.mk_globals 0 0 0)))
    = [Lifecycle.Adapter 100].
Proof.
  split; [reflexivity |]. split; [discriminate |].
  apply (init_without_device_keeps_adapter
           (Lifecycle.mk_kernel 100 0 0) (Lifecycle.mk_globals 0 0 0));
    [reflexivity | discriminate].
Defined.
